(** * Inventory management: transfer engine and alert engine

    Shallow embedding of the two API handlers of the repository,

    - [src/pages/api/transfers/index.js]  (POST: create a stock transfer)
    - [src/pages/api/alerts/index.js]     (GET: compute alerts, POST:
      acknowledge, DELETE: unacknowledge)

    and the properties of the specification that concern them.

    The JSON files under [data/] are the state; a handler is a function
    from the parsed files and the request to a response and the arrays it
    writes back.  A file that cannot be read or written makes the handler
    answer 500; that path is not part of this development. *)

From Stdlib Require Import ZArith QArith Qround Qabs Lqa Lia.
From Stdlib Require Import Ascii String.
From Stdlib Require Import Sorting.Sorted Sorting.Permutation.
From stdpp Require Import base option list.

Local Open Scope Z_scope.

(** ** JavaScript values and the conversions the handlers rely on *)

Module JS.

(** An integer-valued JavaScript number, or [NaN].  This is what
    [parseInt] returns and what the numeric fields of the stored records
    hold.  Integers are exact (the model is meant for magnitudes below
    2^53, where IEEE doubles are exact as well). *)
Inductive num : Type :=
| Int (z : Z)
| NaN.

(** The result of [ToNumber]: rationals extended with the two infinities
    and [NaN]. *)
Inductive number : Type :=
| NumNaN
| NumNegInf
| NumFin (q : Q)
| NumPosInf.

(** A primitive value as it arrives in a JSON body or a query string.
    [VUndefined] stands for an absent field.  [VNum q] is the number
    whose decimal rendering denotes [q]; [VStr s] is the text whose
    UTF-8 bytes are [s].  Arrays and objects are not covered. *)
Inductive value : Type :=
| VUndefined
| VNull
| VBool (b : bool)
| VNum (q : Q)
| VStr (s : string).

(** *** Arithmetic and comparison on [num] *)

Definition num_add (a b : num) : num :=
  match a, b with
  | Int x, Int y => Int (x + y)
  | _, _ => NaN
  end.

Definition num_sub (a b : num) : num :=
  match a, b with
  | Int x, Int y => Int (x - y)
  | _, _ => NaN
  end.

(** [Math.max] of two numbers. *)
Definition num_max (a b : num) : num :=
  match a, b with
  | Int x, Int y => Int (Z.max x y)
  | _, _ => NaN
  end.

(** [a < b]: false as soon as one side is [NaN]. *)
Definition num_lt (a b : num) : bool :=
  match a, b with
  | Int x, Int y => x <? y
  | _, _ => false
  end.

(** [a === b] on numbers: [NaN] is equal to nothing. *)
Definition strict_eq (a b : num) : bool :=
  match a, b with
  | Int x, Int y => x =? y
  | _, _ => false
  end.

(** [a !== b]. *)
Definition strict_ne (a b : num) : bool := negb (strict_eq a b).

(** [a || 0] on a number: [0] and [NaN] are falsy. *)
Definition num_or_zero (a : num) : num :=
  match a with
  | Int z => Int z
  | NaN => Int 0
  end.

(** *** Truthiness and strict equality on values *)

Definition truthy (v : value) : bool :=
  match v with
  | VUndefined => false
  | VNull => false
  | VBool b => b
  | VNum q => negb (Qeq_bool q 0)
  | VStr s => negb (String.eqb s EmptyString)
  end.

(** [a === b]: same type and same value, no conversion. *)
Definition strict_equals (a b : value) : bool :=
  match a, b with
  | VUndefined, VUndefined => true
  | VNull, VNull => true
  | VBool x, VBool y => Bool.eqb x y
  | VNum x, VNum y => Qeq_bool x y
  | VStr x, VStr y => String.eqb x y
  | _, _ => false
  end.

(** [v || d]. *)
Definition or_else (v d : value) : value := if truthy v then v else d.

(** *** Characters *)

(** White space ([StrWhiteSpaceChar]).  A string holds its text in
    UTF-8: a character below U+0080 is one byte, the others take two or
    three.  In one byte: TAB, LF, VT, FF, CR and space; a byte 160 standing
    on its own is read as U+00A0 too. *)
Definition is_ws (c : ascii) : bool :=
  let n := N_of_ascii c in
  (((9 <=? n) && (n <=? 13)) || (n =? 32) || (n =? 160))%N.

(** In two bytes: U+00A0. *)
Definition is_ws2 (c d : ascii) : bool :=
  ((N_of_ascii c =? 194) && (N_of_ascii d =? 160))%N.

(** In three bytes: U+1680, U+2000 to U+200A, U+2028, U+2029, U+202F,
    U+205F, U+3000 and U+FEFF. *)
Definition is_ws3 (c d e : ascii) : bool :=
  let c := N_of_ascii c in
  let d := N_of_ascii d in
  let e := N_of_ascii e in
  (((c =? 225) && (d =? 154) && (e =? 128))
   || ((c =? 226) && (d =? 128)
       && (((128 <=? e) && (e <=? 138)) || (e =? 168) || (e =? 169) || (e =? 175)))
   || ((c =? 226) && (d =? 129) && (e =? 159))
   || ((c =? 227) && (d =? 128) && (e =? 128))
   || ((c =? 239) && (d =? 187) && (e =? 191)))%N.

Definition digit_val (c : ascii) : option Z :=
  let n := Z.of_N (N_of_ascii c) in
  if (48 <=? n) && (n <=? 57) then Some (n - 48) else None.

Definition hex_val (c : ascii) : option Z :=
  let n := Z.of_N (N_of_ascii c) in
  if (48 <=? n) && (n <=? 57) then Some (n - 48)
  else if (65 <=? n) && (n <=? 70) then Some (n - 55)
  else if (97 <=? n) && (n <=? 102) then Some (n - 87)
  else None.

Definition oct_val (c : ascii) : option Z :=
  let n := Z.of_N (N_of_ascii c) in
  if (48 <=? n) && (n <=? 55) then Some (n - 48) else None.

Definition bin_val (c : ascii) : option Z :=
  let n := Z.of_N (N_of_ascii c) in
  if (48 <=? n) && (n <=? 49) then Some (n - 48) else None.

Fixpoint drop_ws (s : string) : string :=
  match s with
  | String c s1 =>
      if is_ws c then drop_ws s1
      else
        match s1 with
        | String d s2 =>
            if is_ws2 c d then drop_ws s2
            else
              match s2 with
              | String e s3 => if is_ws3 c d e then drop_ws s3 else s
              | EmptyString => s
              end
        | EmptyString => s
        end
  | EmptyString => EmptyString
  end.

Fixpoint all_ws (s : string) : bool :=
  match s with
  | String c s1 =>
      if is_ws c then all_ws s1
      else
        match s1 with
        | String d s2 =>
            if is_ws2 c d then all_ws s2
            else
              match s2 with
              | String e s3 => is_ws3 c d e && all_ws s3
              | EmptyString => false
              end
        | EmptyString => false
        end
  | EmptyString => true
  end.

(** The longest prefix of [s] made of digits of the given radix: its
    value (continuing from [acc]), its length, and what follows it. *)
Fixpoint take_digits (val : ascii -> option Z) (radix : Z)
         (acc : Z) (len : nat) (s : string) : Z * nat * string :=
  match s with
  | String c s' =>
      match val c with
      | Some d => take_digits val radix (acc * radix + d) (S len) s'
      | None => (acc, len, s)
      end
  | EmptyString => (acc, len, s)
  end.

(** Splits an optional sign off the front: [-1] for a minus sign. *)
Definition take_sign (s : string) : Z * string :=
  match s with
  | String "-"%char s' => (-1, s')
  | String "+"%char s' => (1, s')
  | _ => (1, s)
  end.

Definition is_hex_prefix (s : string) : option string :=
  match s with
  | String "0"%char (String "x"%char s') => Some s'
  | String "0"%char (String "X"%char s') => Some s'
  | _ => None
  end.

(** *** [parseInt(v)], radix omitted *)

(** On a string: skip leading white space, read a sign, switch to radix
    16 after a [0x] prefix, and read digits up to the first character
    that is not one.  No digit at all gives [NaN]. *)
Definition parseInt_string (s : string) : num :=
  let (sign, s1) := take_sign (drop_ws s) in
  match is_hex_prefix s1 with
  | Some s2 =>
      let '(v, len, _) := take_digits hex_val 16 0 0%nat s2 in
      if Nat.eqb len 0 then NaN else Int (sign * v)
  | None =>
      let '(v, len, _) := take_digits digit_val 10 0 0%nat s1 in
      if Nat.eqb len 0 then NaN else Int (sign * v)
  end.

Definition leading_digit (p : positive) : Z :=
  match Pos.to_uint p with
  | Decimal.D1 _ => 1 | Decimal.D2 _ => 2 | Decimal.D3 _ => 3
  | Decimal.D4 _ => 4 | Decimal.D5 _ => 5 | Decimal.D6 _ => 6
  | Decimal.D7 _ => 7 | Decimal.D8 _ => 8 | Decimal.D9 _ => 9
  | _ => 0
  end.

(** On a number [parseInt] reads the number's string rendering.  Between
    1e-6 and 1e21 the rendering is positional and the digits before the
    point are the truncation of the number; outside, it is in exponent
    form ([1.5e-7], [1e+21]) and [parseInt] stops after the first
    significant digit. *)
Definition parseInt_number (q : Q) : Z :=
  let a := Z.abs (Qnum q) in
  let b := Zpos (Qden q) in
  let sign := Z.sgn (Qnum q) in
  if a =? 0 then 0
  else if 10 ^ 21 * b <=? a then
    sign * leading_digit (Z.to_pos (a / b))
  else if a * 10 ^ 6 <? b then
    let k := Z.of_nat (Decimal.nb_digits (Pos.to_uint (Qden q))) in
    sign * leading_digit (Z.to_pos (a * 10 ^ k / b))
  else sign * (a / b).

Definition parseInt (v : value) : num :=
  match v with
  | VStr s => parseInt_string s
  | VNum q => Int (parseInt_number q)
  | VUndefined | VNull | VBool _ => NaN
  end.

(** *** [ToNumber(v)] *)

Definition is_exp_mark (s : string) : option string :=
  match s with
  | String "e"%char s' => Some s'
  | String "E"%char s' => Some s'
  | _ => None
  end.

Definition is_radix_prefix (s : string)
  : option ((ascii -> option Z) * Z * string) :=
  match s with
  | String "0"%char (String c s') =>
      if (Ascii.eqb c "x" || Ascii.eqb c "X")%char then Some (hex_val, 16, s')
      else if (Ascii.eqb c "o" || Ascii.eqb c "O")%char then Some (oct_val, 8, s')
      else if (Ascii.eqb c "b" || Ascii.eqb c "B")%char then Some (bin_val, 2, s')
      else None
  | _ => None
  end.

(** [StrDecimalLiteral] without its sign: digits, an optional fraction,
    an optional exponent, and nothing but white space after it. *)
Definition decimal_literal (s : string) : option Q :=
  let '(ip, ilen, s1) := take_digits digit_val 10 0 0%nat s in
  let '(m, flen, s2) :=
    match s1 with
    | String "."%char s1' => take_digits digit_val 10 ip 0%nat s1'
    | _ => (ip, 0%nat, s1)
    end in
  if Nat.eqb (ilen + flen) 0 then None
  else
    match is_exp_mark s2 with
    | Some s3 =>
        let (esign, s4) := take_sign s3 in
        let '(e, elen, s5) := take_digits digit_val 10 0 0%nat s4 in
        if Nat.eqb elen 0 then None
        else if all_ws s5
             then Some (inject_Z m * Qpower 10 (esign * e - Z.of_nat flen))%Q
             else None
    | None =>
        if all_ws s2
        then Some (inject_Z m * Qpower 10 (- Z.of_nat flen))%Q
        else None
    end.

(** The two ends of the range of a double.  A literal whose magnitude is
    at most 2^-1075, half the least positive double, denotes zero; one
    whose magnitude is 2^1024 - 2^970 or more denotes an infinity.  In
    between, a number is taken by its exact value, which has the sign of
    the double it rounds to. *)
Definition to_double_range (q : Q) : number :=
  if Qle_bool (Qabs q) (Qpower 2 (-1075)) then NumFin 0
  else if Qle_bool (inject_Z (2 ^ 1024 - 2 ^ 970)) (Qabs q)
       then (if Qle_bool 0 q then NumPosInf else NumNegInf)
       else NumFin q.

(** [StringToNumber]: the empty or blank string is [0]; a signed decimal
    literal or [Infinity]; an unsigned [0x], [0o] or [0b] literal;
    anything else is [NaN]. *)
Definition ToNumber_string (s : string) : number :=
  let s0 := drop_ws s in
  if all_ws s0 then NumFin 0
  else
    match is_radix_prefix s0 with
    | Some (val, radix, s1) =>
        let '(v, len, rest) := take_digits val radix 0 0%nat s1 in
        if negb (Nat.eqb len 0) && all_ws rest then to_double_range (inject_Z v)
        else NumNaN
    | None =>
        let (sign, s1) := take_sign s0 in
        if String.prefix "Infinity" s1
           && all_ws (String.substring 8 (String.length s1 - 8) s1)
        then (if sign =? 1 then NumPosInf else NumNegInf)
        else
          match decimal_literal s1 with
          | Some q => to_double_range (inject_Z sign * q)
          | None => NumNaN
          end
    end.

Definition ToNumber (v : value) : number :=
  match v with
  | VUndefined => NumNaN
  | VNull => NumFin 0
  | VBool b => NumFin (if b then 1 else 0)
  | VNum q => NumFin q
  | VStr s => ToNumber_string s
  end.

(** [v <= 0]: the comparison is made on [ToNumber v]; it is false when
    that is [NaN]. *)
Definition le_zero (v : value) : bool :=
  match ToNumber v with
  | NumNaN => false
  | NumNegInf => true
  | NumFin q => Qle_bool q 0
  | NumPosInf => false
  end.

End JS.


Import JS.

(** ** Data model: the records of the JSON files *)

Module Product.
Record t : Type := mk {
  id : num;
  sku : string;
  name : string;
  category : string;
  unitCost : Q;
  reorderPoint : Q
}.
End Product.

Module Warehouse.
Record t : Type := mk {
  id : num;
  name : string;
  location : string
}.
End Warehouse.

Module StockEntry.
Record t : Type := mk {
  id : num;
  productId : num;
  warehouseId : num;
  quantity : num
}.

(** [s.quantity -= q] and [s.quantity += q] on the entry itself. *)
Definition sub_quantity (q : num) (s : t) : t :=
  mk (id s) (productId s) (warehouseId s) (num_sub (quantity s) q).

Definition add_quantity (q : num) (s : t) : t :=
  mk (id s) (productId s) (warehouseId s) (num_add (quantity s) q).

(** The pair an entry is filed under. *)
Definition key (s : t) : num * num := (productId s, warehouseId s).
End StockEntry.

Module Transfer.
Record t : Type := mk {
  id : num;
  productId : num;
  fromWarehouseId : num;
  toWarehouseId : num;
  quantity : num;
  notes : value;
  date : string;
  status : string
}.

(** A transfer with the display names the response adds to it. *)
Record enriched : Type := mkEnriched {
  transfer : t;
  productName : string;
  productSku : string;
  fromWarehouseName : string;
  toWarehouseName : string
}.
End Transfer.

Module AlertAcknowledgment.
Record t : Type := mk {
  productId : num;
  acknowledged : bool;
  acknowledgedAt : value;
  acknowledgedBy : value
}.
End AlertAcknowledgment.

(** The parsed contents of [products.json], [warehouses.json],
    [stock.json], [transfers.json] and [alerts.json]. *)
Record Store : Type := mkStore {
  products : list Product.t;
  warehouses : list Warehouse.t;
  stock : list StockEntry.t;
  transfers : list Transfer.t;
  alerts : list AlertAcknowledgment.t
}.

(** [Math.max(...l) + 1] for a non-empty [l], [1] for an empty one. *)
Definition next_id (l : list num) : num :=
  match l with
  | [] => Int 1
  | x :: l' => num_add (foldl num_max x l') (Int 1)
  end.

(** [l.find(f)] together with the position of what it found: the object
    returned by [find] is the array element itself, so a later assignment
    to one of its fields is an update of the array at that position. *)
Definition find_ref {A} (f : A -> bool) (l : list A) : option (nat * A) :=
  list_find (fun x => Is_true (f x)) l.

(** ** The transfer engine: [POST /api/transfers] *)

Module Transfers.

(** The fields read from [req.body]. *)
Record Body : Type := mkBody {
  productId : value;
  fromWarehouseId : value;
  toWarehouseId : value;
  quantity : value;
  notes : value
}.

Inductive Error : Type :=
| MissingFields
| SameWarehouse
| InvalidQuantity
| ProductNotFound
| WarehouseNotFound
| InsufficientStock (warehouseName : string) (available : num) (requested : value).

(** What the [try] block of the POST branch answers when nothing in it
    throws.  The 500 of its [catch] block is an answer of
    [TransferEndpoint.Answer], which wraps this type. *)
Inductive Response : Type :=
| Rejected (e : Error)
| Created (t : Transfer.enriched).

Definition error_status (e : Error) : Z :=
  match e with
  | MissingFields | SameWarehouse | InvalidQuantity => 400
  | ProductNotFound | WarehouseNotFound => 404
  | InsufficientStock _ _ _ => 400
  end.

(** The [error] text of the response.  The insufficient-stock text goes
    on with the warehouse name, the available and the requested amount,
    which the constructor carries; only its fixed beginning is given. *)
Definition error_message (e : Error) : string :=
  match e with
  | MissingFields => "Missing required fields"
  | SameWarehouse => "Source and destination warehouses must be different"
  | InvalidQuantity => "Quantity must be greater than 0"
  | ProductNotFound => "Product not found"
  | WarehouseNotFound => "Warehouse not found"
  | InsufficientStock _ _ _ => "Insufficient stock"
  end.

Definition status (r : Response) : Z :=
  match r with
  | Rejected e => error_status e
  | Created _ => 201
  end.

Definition stock_at (pid wid : num) (s : StockEntry.t) : bool :=
  strict_eq (StockEntry.productId s) pid && strict_eq (StockEntry.warehouseId s) wid.

(** The [try] block of the POST branch of [handler], for a body that is
    an object and files that can be read and written, so that nothing
    throws; [TransferEndpoint.post] is the branch with its [catch] block.
    [now] is [new Date().toISOString()].  The result pairs the response
    with the store after the two [writeJSONFile] calls; a rejected request
    writes nothing. *)
Definition createTransfer (now : string) (st : Store) (body : Body)
  : Response * Store :=
  let productId := productId body in
  let fromWarehouseId := fromWarehouseId body in
  let toWarehouseId := toWarehouseId body in
  let quantity := quantity body in
  let notes := notes body in
  if negb (truthy productId) || negb (truthy fromWarehouseId)
     || negb (truthy toWarehouseId) || negb (truthy quantity)
  then (Rejected MissingFields, st)
  else if strict_equals fromWarehouseId toWarehouseId
  then (Rejected SameWarehouse, st)
  else if le_zero quantity
  then (Rejected InvalidQuantity, st)
  else
    let transfers := transfers st in
    let stock := stock st in
    match find (fun p => strict_eq (Product.id p) (parseInt productId)) (products st) with
    | None => (Rejected ProductNotFound, st)
    | Some product =>
      let fromWarehouse :=
        find (fun w => strict_eq (Warehouse.id w) (parseInt fromWarehouseId)) (warehouses st) in
      let toWarehouse :=
        find (fun w => strict_eq (Warehouse.id w) (parseInt toWarehouseId)) (warehouses st) in
      match fromWarehouse, toWarehouse with
      | Some fromWarehouse, Some toWarehouse =>
        let sourceStock :=
          find_ref (stock_at (parseInt productId) (parseInt fromWarehouseId)) stock in
        match sourceStock with
        | None =>
            (Rejected (InsufficientStock (Warehouse.name fromWarehouse) (Int 0) quantity), st)
        | Some (i, sourceStock) =>
          if num_lt (StockEntry.quantity sourceStock) (parseInt quantity)
          then (Rejected (InsufficientStock (Warehouse.name fromWarehouse)
                            (num_or_zero (StockEntry.quantity sourceStock)) quantity), st)
          else
            let newTransfer :=
              Transfer.mk (next_id (map Transfer.id transfers))
                          (parseInt productId)
                          (parseInt fromWarehouseId)
                          (parseInt toWarehouseId)
                          (parseInt quantity)
                          (or_else notes (VStr ""))
                          now
                          "completed" in
            (* sourceStock.quantity -= parseInt(quantity) *)
            let stock := alter (StockEntry.sub_quantity (parseInt quantity)) i stock in
            let destStock :=
              find_ref (stock_at (parseInt productId) (parseInt toWarehouseId)) stock in
            let stock :=
              match destStock with
              | Some (j, _) =>
                  (* destStock.quantity += parseInt(quantity) *)
                  alter (StockEntry.add_quantity (parseInt quantity)) j stock
              | None =>
                  let newStockId := next_id (map StockEntry.id stock) in
                  stock ++ [StockEntry.mk newStockId
                                          (parseInt productId)
                                          (parseInt toWarehouseId)
                                          (parseInt quantity)]
              end in
            let transfers := transfers ++ [newTransfer] in
            let enrichedTransfer :=
              Transfer.mkEnriched newTransfer
                                  (Product.name product)
                                  (Product.sku product)
                                  (Warehouse.name fromWarehouse)
                                  (Warehouse.name toWarehouse) in
            (Created enrichedTransfer,
             mkStore (products st) (warehouses st) stock transfers (alerts st))
        end
      | _, _ => (Rejected WarehouseNotFound, st)
      end
    end.

(** The stock array after the two updates of an accepted transfer:
    [i] is where the source entry sits. *)
Definition stock_after (pid tid q : num) (i : nat) (stock : list StockEntry.t)
  : list StockEntry.t :=
  let stock1 := alter (StockEntry.sub_quantity q) i stock in
  match find_ref (stock_at pid tid) stock1 with
  | Some (j, _) => alter (StockEntry.add_quantity q) j stock1
  | None => stock1 ++ [StockEntry.mk (next_id (map StockEntry.id stock1)) pid tid q]
  end.

(** Where the source entry of a request sits in a stock array. *)
Definition source_entry (body : Body) (stock : list StockEntry.t)
  : option StockEntry.t :=
  find (stock_at (parseInt (productId body)) (parseInt (fromWarehouseId body))) stock.

(** The stock file holds at most one entry per (product, warehouse). *)
Definition unique_pairs (stock : list StockEntry.t) : Prop :=
  NoDup (StockEntry.key <$> stock).

End Transfers.

(** ** The stock ledger *)

(** [stock.filter(s => s.productId === id).reduce((sum, s) => sum + s.quantity, 0)],
    as the alert engine computes the total of a product. *)
Definition productStock (stock : list StockEntry.t) (pid : num) : list StockEntry.t :=
  List.filter (fun s => strict_eq (StockEntry.productId s) pid) stock.

Definition totalQuantity (stock : list StockEntry.t) (pid : num) : num :=
  foldl (fun sum s => num_add sum (StockEntry.quantity s)) (Int 0) (productStock stock pid).


(** ** The POST branch with its [try] and [catch] *)

Module TransferEndpoint.
Import Transfers.

(** How the four files behave during one request: whether they can be
    read, and whether each of the two that are written can be written.
    [readJSONFile] and [writeJSONFile] throw when they cannot. *)
Record Disk : Type := mkDisk {
  readable : bool;
  transfers_writable : bool;
  stock_writable : bool
}.

(** The answer of the branch: what the [try] block answers, or the 500 of
    the [catch] block, [{ error: 'Failed to create transfer' }]. *)
Inductive Answer : Type :=
| Reply (r : Response)
| ServerError.

Definition answer_status (a : Answer) : Z :=
  match a with
  | Reply r => status r
  | ServerError => 500
  end.

(** The three checks made on the body alone, before any file is read. *)
Definition before_reading (e : Error) : bool :=
  match e with
  | MissingFields | SameWarehouse | InvalidQuantity => true
  | ProductNotFound | WarehouseNotFound | InsufficientStock _ _ _ => false
  end.

(** The POST branch of [handler] as a whole.  [body] is [req.body]:
    [None] when it is [null] or [undefined], in which case taking its
    fields throws; otherwise its fields, those it does not have being
    [VUndefined].  [createTransfer] is the [try] block on files that can
    be read and written.  The files are read after the three checks on
    the body; [transfers.json] is written before [stock.json], so that a
    failure of the second write leaves the first one done. *)
Definition post (disk : Disk) (now : string) (st : Store) (body : option Body)
  : Answer * Store :=
  match body with
  | None => (ServerError, st)
  | Some body =>
      match createTransfer now st body with
      | (Rejected e, _) =>
          if before_reading e || readable disk then (Reply (Rejected e), st)
          else (ServerError, st)
      | (Created t, st') =>
          if negb (readable disk) then (ServerError, st)
          else if negb (transfers_writable disk) then (ServerError, st)
          else if negb (stock_writable disk) then
            (ServerError,
             mkStore (products st) (warehouses st) (stock st) (transfers st') (alerts st))
          else (Reply (Created t), st')
      end
  end.

End TransferEndpoint.

(** ** The alert engine: [/api/alerts] *)

Module Alerts.

Inductive Status : Type := Critical | Low | Overstocked | Adequate.

Inductive Severity : Type := SevCritical | SevHigh | SevMedium | SevLow.

(** The string literals the handler uses for the two enumerations. *)
Definition status_name (s : Status) : string :=
  match s with
  | Critical => "critical"
  | Low => "low"
  | Overstocked => "overstocked"
  | Adequate => "adequate"
  end.

Definition severity_name (s : Severity) : string :=
  match s with
  | SevCritical => "critical"
  | SevHigh => "high"
  | SevMedium => "medium"
  | SevLow => "low"
  end.

(** [severityOrder = { critical: 0, high: 1, medium: 2, low: 3 }] *)
Definition severityOrder (s : Severity) : Z :=
  match s with
  | SevCritical => 0
  | SevHigh => 1
  | SevMedium => 2
  | SevLow => 3
  end.

Record Breakdown : Type := mkBreakdown {
  warehouseId : num;
  warehouseName : string;
  warehouseLocation : string;
  quantity : num
}.

Record Alert : Type := mkAlert {
  productId : num;
  productName : string;
  productSku : string;
  category : string;
  unitCost : Q;
  currentStock : num;
  reorderPoint : Q;
  status : Status;
  severity : Severity;
  recommendedAction : string;
  reorderQuantity : num;
  estimatedCost : number;
  warehouseBreakdown : list Breakdown;
  acknowledged : bool;
  acknowledgedAt : value;
  acknowledgedBy : value
}.

(** Comparison of a stock total with a threshold; false on [NaN]. *)
Definition lt_threshold (n : num) (q : Q) : bool :=
  match n with
  | Int z => negb (Qle_bool q (inject_Z z))
  | NaN => false
  end.

Definition gt_threshold (n : num) (q : Q) : bool :=
  match n with
  | Int z => negb (Qle_bool (inject_Z z) q)
  | NaN => false
  end.

(** [Math.ceil(q - n)] *)
Definition ceil_minus (q : Q) (n : num) : num :=
  match n with
  | Int z => Int (Qceiling (q - inject_Z z))
  | NaN => NaN
  end.

(** [n * q] *)
Definition times (n : num) (q : Q) : number :=
  match n with
  | Int z => NumFin (inject_Z z * q)
  | NaN => NumNaN
  end.

(** [s || 'Unknown'] on an optional string. *)
Definition or_unknown (s : option string) : string :=
  match s with
  | Some s => if String.eqb s "" then "Unknown" else s
  | None => "Unknown"
  end.

(** The callback of [products.map]: the alert of one product. *)
Definition productAlert (st : Store) (product : Product.t) : Alert :=
  let productStock := productStock (stock st) (Product.id product) in
  let totalQuantity := totalQuantity (stock st) (Product.id product) in
  let reorderPoint := Product.reorderPoint product in
  let criticalThreshold := (reorderPoint * (1 # 2))%Q in
  let overstockThreshold := (reorderPoint * 3)%Q in
  let '(status, severity, recommendedAction, reorderQuantity) :=
    if lt_threshold totalQuantity criticalThreshold then
      (Critical, SevCritical, "URGENT: Immediate reorder required"%string,
       ceil_minus (reorderPoint * 2) totalQuantity)
    else if lt_threshold totalQuantity reorderPoint then
      (Low, SevHigh, "Reorder recommended"%string,
       ceil_minus (reorderPoint * (3 # 2)) totalQuantity)
    else if gt_threshold totalQuantity overstockThreshold then
      (Overstocked, SevMedium, "Consider redistribution or promotion"%string, Int 0)
    else
      (Adequate, SevLow, "Stock levels healthy"%string, Int 0) in
  let warehouseBreakdown :=
    map (fun s =>
           let warehouse :=
             find (fun w => strict_eq (Warehouse.id w) (StockEntry.warehouseId s))
                  (warehouses st) in
           mkBreakdown (StockEntry.warehouseId s)
                       (or_unknown (Warehouse.name <$> warehouse))
                       (or_unknown (Warehouse.location <$> warehouse))
                       (StockEntry.quantity s))
        productStock in
  let alertRecord :=
    find (fun a => strict_eq (AlertAcknowledgment.productId a) (Product.id product))
         (alerts st) in
  let acknowledged :=
    match alertRecord with
    | Some a => AlertAcknowledgment.acknowledged a || false
    | None => false
    end in
  let acknowledgedAt :=
    match alertRecord with
    | Some a => or_else (AlertAcknowledgment.acknowledgedAt a) VNull
    | None => VNull
    end in
  let acknowledgedBy :=
    match alertRecord with
    | Some a => or_else (AlertAcknowledgment.acknowledgedBy a) VNull
    | None => VNull
    end in
  mkAlert (Product.id product)
          (Product.name product)
          (Product.sku product)
          (Product.category product)
          (Product.unitCost product)
          totalQuantity
          reorderPoint
          status
          severity
          recommendedAction
          reorderQuantity
          (times reorderQuantity (Product.unitCost product))
          warehouseBreakdown
          acknowledged
          acknowledgedAt
          acknowledgedBy.

(** [Array.prototype.sort(cmp)] is a library function of the language:
    it is stable, and for a comparator that orders by a key its result
    is the one stable arrangement by that key, which insertion from the
    right computes.  [x] goes in front of the first element it does not
    come after. *)
Fixpoint sort_insert {A} (cmp : A -> A -> Z) (x : A) (l : list A) : list A :=
  match l with
  | [] => [x]
  | y :: l' => if cmp x y <=? 0 then x :: l else y :: sort_insert cmp x l'
  end.

Definition array_sort {A} (cmp : A -> A -> Z) (l : list A) : list A :=
  foldr (sort_insert cmp) [] l.

(** The GET branch of [handler]: the body of the 200 response. *)
Definition computeAlerts (st : Store) : list Alert :=
  let productAlerts := map (productAlert st) (products st) in
  array_sort (fun a b => severityOrder (severity a) - severityOrder (severity b))
             productAlerts.

Inductive Response : Type :=
| BadRequest (error : string)
| Acknowledged (message : string) (alert : AlertAcknowledgment.t)
| Unacknowledged (message : string).

Definition response_status (r : Response) : Z :=
  match r with
  | BadRequest _ => 400
  | Acknowledged _ _ | Unacknowledged _ => 200
  end.

(** The [try] block of the POST branch, for a body that is an object and
    an [alerts.json] that can be read and written: [body] holds
    [productId] and [acknowledgedBy]; [now] is
    [new Date().toISOString()]. *)
Definition acknowledge (now : string) (st : Store) (productId acknowledgedBy : value)
  : Response * Store :=
  if negb (truthy productId) then (BadRequest "Product ID is required", st)
  else
    let alerts := alerts st in
    let existingAlertIndex :=
      fst <$> find_ref (fun a => strict_eq (AlertAcknowledgment.productId a)
                                           (parseInt productId)) alerts in
    let alertData :=
      AlertAcknowledgment.mk (parseInt productId) true (VStr now)
                             (or_else acknowledgedBy (VStr "System")) in
    let alerts :=
      match existingAlertIndex with
      | Some i => <[i := alertData]> alerts
      | None => alerts ++ [alertData]
      end in
    (Acknowledged "Alert acknowledged successfully" alertData,
     mkStore (products st) (warehouses st) (stock st) (transfers st) alerts).

(** The DELETE branch: [productId] comes from the query string. *)
Definition unacknowledge (st : Store) (productId : value) : Response * Store :=
  if negb (truthy productId) then (BadRequest "Product ID is required", st)
  else
    let alerts := alerts st in
    let filteredAlerts :=
      List.filter (fun a => strict_ne (AlertAcknowledgment.productId a)
                                       (parseInt productId)) alerts in
    (Unacknowledged "Alert unacknowledged successfully",
     mkStore (products st) (warehouses st) (stock st) (transfers st) filteredAlerts).

(** The sort key of an alert. *)
Definition rank (a : Alert) : Z := severityOrder (severity a).

(** The action text the handler attaches to each status. *)
Definition action_of_status (s : Status) : string :=
  match s with
  | Critical => "URGENT: Immediate reorder required"
  | Low => "Reorder recommended"
  | Overstocked => "Consider redistribution or promotion"
  | Adequate => "Stock levels healthy"
  end.

End Alerts.


(** ** Sample data *)

Module Sample.
Import Transfers.

Definition now : string := "2024-05-01T10:00:00.000Z".

(** Two products and two warehouses; warehouse 1 holds 40 of product 1
    and 20 of product 2, warehouse 2 holds nothing. *)
Definition store : Store :=
  mkStore
    [Product.mk (Int 1) "SKU-1" "Bamboo Spork" "Utensils" (5 # 2) 100;
     Product.mk (Int 2) "SKU-2" "Hemp Tote" "Bags" 4 10]
    [Warehouse.mk (Int 1) "North Hub" "Toronto";
     Warehouse.mk (Int 2) "South Hub" "Austin"]
    [StockEntry.mk (Int 1) (Int 1) (Int 1) (Int 40);
     StockEntry.mk (Int 2) (Int 2) (Int 1) (Int 20)]
    []
    [].

(** What the transfer form posts: every field is a string. *)
Definition body_form : Body :=
  mkBody (VStr "1") (VStr "1") (VStr "2") (VStr "10") (VStr "").

(** [{productId: 1, fromWarehouseId: 1, toWarehouseId: 2, quantity: "abc"}] *)
Definition body_text_quantity : Body :=
  mkBody (VNum 1) (VNum 1) (VNum 2) (VStr "abc") VUndefined.

(** [{productId: 1, fromWarehouseId: "1", toWarehouseId: 1, quantity: 10}] *)
Definition body_mixed_ids : Body :=
  mkBody (VNum 1) (VStr "1") (VNum 1) (VNum 10) VUndefined.

(** [{productId: 1, fromWarehouseId: 1, toWarehouseId: 2, quantity: 0}] *)
Definition body_zero : Body :=
  mkBody (VNum 1) (VNum 1) (VNum 2) (VNum 0) VUndefined.

(** [{productId: 1, fromWarehouseId: 1, toWarehouseId: 2, quantity: 2.5}] *)
Definition body_fraction : Body :=
  mkBody (VNum 1) (VNum 1) (VNum 2) (VNum (5 # 2)) VUndefined.

(** [{productId: 1, fromWarehouseId: 1, toWarehouseId: 2, quantity: -3}] *)
Definition body_negative : Body :=
  mkBody (VNum 1) (VNum 1) (VNum 2) (VNum (-3)) VUndefined.

(** [{productId: 1, fromWarehouseId: 1, toWarehouseId: 1, quantity: 0}] *)
Definition body_same_zero : Body :=
  mkBody (VNum 1) (VNum 1) (VNum 1) (VNum 0) VUndefined.

(** [{productId: 1, fromWarehouseId: 1, toWarehouseId: 1, quantity: 5}] *)
Definition body_same : Body :=
  mkBody (VNum 1) (VNum 1) (VNum 1) (VNum 5) VUndefined.

End Sample.

(** ** The transfer history: [GET /api/transfers] *)

Module TransferList.

(** [x?.field || fallback] on a string field of a record that may not
    have been found. *)
Definition string_or (s : option string) (fallback : string) : string :=
match s with
| Some s => if String.eqb s "" then fallback else s
| None => fallback
end.

(** The callback of [transfers.map]: a transfer with its display names. *)
Definition enrich (st : Store) (transfer : Transfer.t) : Transfer.enriched :=
let product :=
  find (fun p => strict_eq (Product.id p) (Transfer.productId transfer)) (products st) in
let fromWarehouse :=
  find (fun w => strict_eq (Warehouse.id w) (Transfer.fromWarehouseId transfer))
       (warehouses st) in
let toWarehouse :=
  find (fun w => strict_eq (Warehouse.id w) (Transfer.toWarehouseId transfer))
       (warehouses st) in
Transfer.mkEnriched transfer
                    (string_or (Product.name <$> product) "Unknown Product")
                    (string_or (Product.sku <$> product) "N/A")
                    (string_or (Warehouse.name <$> fromWarehouse) "Unknown Warehouse")
                    (string_or (Warehouse.name <$> toWarehouse) "Unknown Warehouse").

(** What the sort does with the number its comparator returns: [NaN]
    counts as [0]. *)
Definition compare_result (n : num) : Z :=
match n with
| Int z => z
| NaN => 0
end.

(** The GET branch of [handler]: the body of the 200 response.
    [timeValue s] is the time value of [new Date(s)], in milliseconds, or
    [NaN] for a string that is not a date; it is the language's and is
    taken as given.  The comparator is [new Date(b.date) - new Date(a.date)].
    When some date is not valid the comparator is not an ordering and the
    arrangement is left to the engine; the sort of this model then is one
    possible outcome. *)
Definition listTransfers (timeValue : string -> num) (st : Store)
  : list Transfer.enriched :=
let enrichedTransfers := map (enrich st) (transfers st) in
Alerts.array_sort
  (fun a b => compare_result
                (num_sub (timeValue (Transfer.date (Transfer.transfer b)))
                         (timeValue (Transfer.date (Transfer.transfer a)))))
  enrichedTransfers.

(** The time of a listed transfer as the sort sees it. *)
Definition time_of (timeValue : string -> num) (t : Transfer.enriched) : Z :=
compare_result (timeValue (Transfer.date (Transfer.transfer t))).

End TransferList.

(** ** The transfers page: [src/pages/transfers/index.js] *)

Module TransfersPage.

(** [getAvailableStock(productId, warehouseId)] over the [stock] the page
    has fetched; the two ids are the strings of the form. *)
Definition getAvailableStock (stock : list StockEntry.t) (productId warehouseId : value)
  : num :=
if negb (truthy productId) || negb (truthy warehouseId) then Int 0
else
  let stockItem :=
    find (fun s => strict_eq (StockEntry.productId s) (parseInt productId)
                   && strict_eq (StockEntry.warehouseId s) (parseInt warehouseId))
         stock in
  match stockItem with
  | Some s => num_or_zero (StockEntry.quantity s)
  | None => Int 0
  end.

End TransfersPage.

(** ** The alerts page: [src/pages/alerts/index.js] *)

Module AlertsPage.
Import Alerts.

(** [alerts.filter(...)] with the page's two filter settings: [filter] is
    one of 'all', 'critical', 'high', 'medium', 'low'. *)
Definition filteredAlerts (filter : string) (showAcknowledged : bool)
           (alerts : list Alert) : list Alert :=
List.filter
  (fun alert =>
     let severityMatch :=
       String.eqb filter "all" || String.eqb (severity_name (severity alert)) filter in
     let acknowledgedMatch :=
       if showAcknowledged then true else negb (acknowledged alert) in
     severityMatch && acknowledgedMatch)
  alerts.

(** The counts of the statistics cards. *)
Definition criticalCount (alerts : list Alert) : nat :=
length (List.filter
          (fun a => String.eqb (severity_name (severity a)) "critical"
                    && negb (acknowledged a)) alerts).

Definition highCount (alerts : list Alert) : nat :=
length (List.filter
          (fun a => String.eqb (severity_name (severity a)) "high"
                    && negb (acknowledged a)) alerts).

Definition mediumCount (alerts : list Alert) : nat :=
length (List.filter
          (fun a => String.eqb (severity_name (severity a)) "medium"
                    && negb (acknowledged a)) alerts).

End AlertsPage.

(** ** The dashboard: [src/pages/index.js] *)

Module Dashboard.
Import Alerts.

(** [stock.reduce((sum, item) => sum + item.quantity, 0)] *)
Definition totalItems (stock : list StockEntry.t) : num :=
foldl (fun sum item => num_add sum (StockEntry.quantity item)) (Int 0) stock.

(** One row of [inventoryOverview]: the product and what is derived from
    its stock. *)
Record Overview : Type := mkOverview {
  product : Product.t;
  totalQuantity : num;
  stockValue : number;
  isLowStock : bool;
  isCritical : bool;
  isOverstocked : bool
}.

Definition overview (stock : list StockEntry.t) (product : Product.t) : Overview :=
let productStock :=
  List.filter (fun s => strict_eq (StockEntry.productId s) (Product.id product)) stock in
let totalQuantity :=
  foldl (fun sum s => num_add sum (StockEntry.quantity s)) (Int 0) productStock in
let stockValue := times totalQuantity (Product.unitCost product) in
mkOverview product
           totalQuantity
           stockValue
           (lt_threshold totalQuantity (Product.reorderPoint product))
           (lt_threshold totalQuantity (Product.reorderPoint product * (1 # 2)))
           (gt_threshold totalQuantity (Product.reorderPoint product * 3)).

Definition inventoryOverview (products : list Product.t) (stock : list StockEntry.t)
  : list Overview :=
map (overview stock) products.

(** The four counts of the stock status chart. *)
Definition criticalStock (io : list Overview) : nat :=
length (List.filter (fun item => isCritical item) io).

Definition lowStock (io : list Overview) : nat :=
length (List.filter (fun item => isLowStock item && negb (isCritical item)) io).

Definition adequateStock (io : list Overview) : nat :=
length (List.filter (fun item => negb (isLowStock item) && negb (isOverstocked item)) io).

Definition overstocked (io : list Overview) : nat :=
length (List.filter (fun item => isOverstocked item) io).

(** The [status] column of the exported report. *)
Definition export_status (item : Overview) : string :=
if isCritical item then "Critical"
else if isLowStock item then "Low Stock"
else if isOverstocked item then "Overstocked"
else "Adequate".

(** The label the report uses for a status of the alert engine. *)
Definition status_label (s : Status) : string :=
match s with
| Critical => "Critical"
| Low => "Low Stock"
| Overstocked => "Overstocked"
| Adequate => "Adequate"
end.

End Dashboard.

(** ** Keyboard shortcuts: [src/lib/keyboardShortcuts.js] *)

Module Keyboard.

(** The part of a [keydown] event the listener reads. *)
Record Event : Type := mkEvent {
  tagName : string;
  ctrlKey : bool;
  metaKey : bool;
  shiftKey : bool;
  key : string
}.

(** Which of the optional [customHandlers] the page passed. *)
Record Handlers : Type := mkHandlers {
  showShortcuts : bool;
  exportCSV : bool;
  exportPDF : bool;
  newItem : bool;
  closeModal : bool
}.

(** What the listener does, in order. *)
Inductive Action : Type :=
| PreventDefault
| Push (path : string)
| ShowShortcuts
| ExportCSV
| ExportPDF
| NewItem
| CloseModal.

(** [s.toLowerCase()] on ASCII text; other characters are left as they
    are. *)
Definition lower_char (c : ascii) : ascii :=
let n := N_of_ascii c in
if ((65 <=? n) && (n <=? 90))%N then ascii_of_N (n + 32) else c.

Fixpoint toLowerCase (s : string) : string :=
match s with
| String c s' => String (lower_char c) (toLowerCase s')
| EmptyString => EmptyString
end.

(** [if (handler) handler()] *)
Definition call (present : bool) (a : Action) : list Action :=
if present then [a] else [].

(** [handleKeyPress(event)] *)
Definition handleKeyPress (customHandlers : Handlers) (event : Event) : list Action :=
let isInputField :=
  existsb (String.eqb (tagName event)) ["INPUT"; "TEXTAREA"; "SELECT"]%string in
if isInputField && negb (ctrlKey event) && negb (metaKey event) then []
else
  let k := toLowerCase (key event) in
  (if ctrlKey event || metaKey event then
     if String.eqb k "h" then [PreventDefault; Push "/"]
     else if String.eqb k "p" then [PreventDefault; Push "/products"]
     else if String.eqb k "w" then [PreventDefault; Push "/warehouses"]
     else if String.eqb k "s" then [PreventDefault; Push "/stock"]
     else if String.eqb k "t" then [PreventDefault; Push "/transfers"]
     else if String.eqb k "a" then [PreventDefault; Push "/alerts"]
     else if String.eqb k "k" then
       PreventDefault :: call (showShortcuts customHandlers) ShowShortcuts
     else if String.eqb k "e" then
       PreventDefault :: call (exportCSV customHandlers) ExportCSV
     else if String.eqb k "shift" then
       if shiftKey event && String.eqb (key event) "E"
       then PreventDefault :: call (exportPDF customHandlers) ExportPDF
       else []
     else []
   else [])
  ++
  (if negb (ctrlKey event) && negb (metaKey event) && negb isInputField then
     if String.eqb k "?" then
       PreventDefault :: call (showShortcuts customHandlers) ShowShortcuts
     else if String.eqb k "n" then
       PreventDefault :: call (newItem customHandlers) NewItem
     else if String.eqb k "escape" then
       PreventDefault :: call (closeModal customHandlers) CloseModal
     else []
   else []).

(** Whether an action is more than [preventDefault]. *)
Definition is_effect (a : Action) : bool :=
match a with
| PreventDefault => false
| _ => true
end.

End Keyboard.

(** ** Notions used in the statements *)

Module Notions.

(** Every number of the list is an integer, and no two are the same:
    what the [id] column of a file should satisfy. *)
Definition proper_ids (ids : list num) : Prop :=
  Forall (fun n => exists z, n = Int z) ids /\ NoDup ids.

(** An alert without its warehouse breakdown. *)
Definition without_breakdown (a : Alerts.Alert) : Alerts.Alert :=
  Alerts.mkAlert (Alerts.productId a) (Alerts.productName a) (Alerts.productSku a)
                 (Alerts.category a) (Alerts.unitCost a) (Alerts.currentStock a)
                 (Alerts.reorderPoint a) (Alerts.status a) (Alerts.severity a)
                 (Alerts.recommendedAction a) (Alerts.reorderQuantity a)
                 (Alerts.estimatedCost a) [] (Alerts.acknowledged a)
                 (Alerts.acknowledgedAt a) (Alerts.acknowledgedBy a).

(** An alert with its acknowledgment fields cleared. *)
Definition without_acknowledgment (a : Alerts.Alert) : Alerts.Alert :=
  Alerts.mkAlert (Alerts.productId a) (Alerts.productName a) (Alerts.productSku a)
                 (Alerts.category a) (Alerts.unitCost a) (Alerts.currentStock a)
                 (Alerts.reorderPoint a) (Alerts.status a) (Alerts.severity a)
                 (Alerts.recommendedAction a) (Alerts.reorderQuantity a)
                 (Alerts.estimatedCost a) (Alerts.warehouseBreakdown a) false VNull VNull.

(** The acknowledgment file has at most one record per product. *)
Definition one_record_per_product (alerts : list AlertAcknowledgment.t) : Prop :=
  NoDup (AlertAcknowledgment.productId <$> alerts).

(** The navigation shortcuts: the letter pressed with Ctrl or Cmd, and
    the page it leads to. *)
Definition navigation : list (string * string) :=
  [("h", "/"); ("p", "/products"); ("w", "/warehouses");
   ("s", "/stock"); ("t", "/transfers"); ("a", "/alerts")]%string.

(** Every quantity of the stock file is an integer that is not
    negative. *)
Definition no_negative_stock (stock : list StockEntry.t) : Prop :=
  Forall (fun s => exists z, StockEntry.quantity s = Int z /\ 0 <= z) stock.

(** The rank of a severity in the words of the specification: critical
    is 0, high 1, medium 2 and low 3. *)
Definition claimed_rank (s : Alerts.Severity) : Z :=
  match s with
  | Alerts.SevCritical => 0
  | Alerts.SevHigh => 1
  | Alerts.SevMedium => 2
  | Alerts.SevLow => 3
  end.

(** Whether a product's alert has the given status and is not
    acknowledged. *)
Definition open_with_status (s : Alerts.Status) (a : Alerts.Alert) : bool :=
  match s, Alerts.status a with
  | Alerts.Critical, Alerts.Critical
  | Alerts.Low, Alerts.Low
  | Alerts.Overstocked, Alerts.Overstocked
  | Alerts.Adequate, Alerts.Adequate => negb (Alerts.acknowledged a)
  | _, _ => false
  end.

(** The first stock entry of a product in a warehouse, as [find] sees
    it. *)
Definition entry_at (pid wid : num) (stock : list StockEntry.t) : option StockEntry.t :=
  find (Transfers.stock_at pid wid) stock.

End Notions.

(** ** More sample data *)

Module Scenario.
Import Transfers.

(** [{productId: "1", fromWarehouseId: "1", toWarehouseId: "2", quantity: "50"}] *)
Definition body_too_much : Body :=
  mkBody (VStr "1") (VStr "1") (VStr "2") (VStr "50") (VStr "").

(** The store after the form's transfer of 10 from warehouse 1 to 2. *)
Definition after_transfer : Store :=
  snd (createTransfer Sample.now Sample.store Sample.body_form).

(** Time values of the dates that occur in the samples. *)
Definition timeValue (s : string) : num :=
  if String.eqb s "2024-05-01T10:00:00.000Z" then Int 1714557600000
  else if String.eqb s "2024-05-02T08:30:00.000Z" then Int 1714638600000
  else NaN.

Definition later : string := "2024-05-02T08:30:00.000Z".



(** A disk on which [stock.json] cannot be written. *)
Definition disk_stock_locked : TransferEndpoint.Disk :=
  TransferEndpoint.mkDisk true true false.

End Scenario.

(** * Properties *)

(** ** Facts about numbers *)

Lemma strict_eq_true a b : strict_eq a b = true <-> exists z, a = Int z /\ b = Int z.
Proof.
  split.
  - destruct a as [x|], b as [y|]; simpl; try discriminate.
    intros H%Z.eqb_eq. subst. eauto.
  - intros (z & -> & ->). simpl. apply Z.eqb_refl.
Qed.

Lemma strict_eq_sym a b : strict_eq a b = strict_eq b a.
Proof. destruct a, b; simpl; auto using Z.eqb_sym. Qed.

Lemma num_add_sub_cancel a z : num_add (num_sub a (Int z)) (Int z) = a.
Proof. destruct a; simpl; f_equal; lia. Qed.

Lemma num_lt_false_ge x y : num_lt (Int x) (Int y) = false -> y <= x.
Proof. simpl. intros H%Z.ltb_ge. exact H. Qed.

(** ** Facts about [find] and in-place updates *)

Section FindRef.
Context {A : Type}.
Implicit Types (f : A -> bool) (l : list A).

Lemma find_ref_Some f l i x :
  find_ref f l = Some (i, x) ->
  l !! i = Some x /\ f x = true /\
  forall j y, l !! j = Some y -> (j < i)%nat -> f y = false.
Proof.
  unfold find_ref. intros (Hi & Hx & Hleast)%list_find_Some.
  split; [exact Hi|]. split; [by apply Is_true_true|].
  intros j y Hj Hlt. specialize (Hleast j y Hj Hlt).
  destruct (f y); [by destruct Hleast|reflexivity].
Qed.

Lemma find_ref_None f l :
  find_ref f l = None -> forall x, x ∈ l -> f x = false.
Proof.
  unfold find_ref. intros H%list_find_None x Hx.
  rewrite Forall_forall in H. specialize (H x Hx).
  destruct (f x); [by destruct H|reflexivity].
Qed.

(** [find] returns the element [find_ref] points at. *)
Lemma find_ref_find f l : find f l = snd <$> find_ref f l.
Proof.
  unfold find_ref. induction l as [|x l IH]; simpl; [reflexivity|].
  destruct (f x) eqn:E.
  - rewrite decide_True by (by apply Is_true_true). reflexivity.
  - rewrite decide_False by (rewrite Is_true_true; congruence).
    rewrite IH. by destruct (list_find _ l) as [[??]|].
Qed.

(** An update that does not change what [f] looks at does not change
    where [find] stops. *)
Lemma find_ref_alter_index f (h : A -> A) l k :
  (forall x, f (h x) = f x) ->
  fst <$> find_ref f (alter h k l) = fst <$> find_ref f l.
Proof.
  intros Hh. unfold find_ref. revert k.
  induction l as [|x l IH]; intros k; [reflexivity|].
  destruct k as [|k]; simpl.
  - rewrite Hh. destruct (decide (f x)); reflexivity.
  - destruct (decide (f x)); [reflexivity|].
    specialize (IH k). change (list_alter h k l) with (alter h k l).
    destruct (list_find _ (alter h k l)) as [[??]|],
             (list_find _ l) as [[??]|]; simpl in *; congruence.
Qed.

Lemma find_ref_alter f (h : A -> A) l k i x :
  (forall x, f (h x) = f x) ->
  find_ref f l = Some (i, x) ->
  find_ref f (alter h k l) = Some (i, if decide (k = i) then h x else x).
Proof.
  intros Hh Hfind.
  pose proof (find_ref_alter_index f h l k Hh) as Hidx.
  rewrite Hfind in Hidx. simpl in Hidx.
  destruct (find_ref f (alter h k l)) as [[i' x']|] eqn:Hfind'; [|discriminate].
  injection Hidx as ->.
  apply find_ref_Some in Hfind as (Hi & _ & _).
  apply find_ref_Some in Hfind' as (Hi' & _ & _).
  destruct (decide (k = i)) as [->|Hne].
  - rewrite list_lookup_alter_eq, Hi in Hi'. simpl in Hi'. congruence.
  - rewrite list_lookup_alter_ne, Hi in Hi' by done. congruence.
Qed.

Lemma find_ref_app_l f l l' i x :
  find_ref f l = Some (i, x) -> find_ref f (l ++ l') = Some (i, x).
Proof. apply list_find_app_l. Qed.

End FindRef.

(** ** The transfer engine *)

Module TransferFacts.
Import Transfers.

Lemma keys_alter (h : StockEntry.t -> StockEntry.t) i (l : list StockEntry.t) :
  (forall s, StockEntry.key (h s) = StockEntry.key s) ->
  StockEntry.key <$> alter h i l = StockEntry.key <$> l.
Proof.
  intros Hh. revert i. induction l as [|s l IH]; intros [|i]; csimpl; auto.
  - by rewrite Hh.
  - f_equal. apply IH.
Qed.

Lemma stock_at_key pid wid s :
  stock_at pid wid s = true <->
  exists p w, pid = Int p /\ wid = Int w /\ StockEntry.key s = (Int p, Int w).
Proof.
  unfold stock_at, StockEntry.key. rewrite andb_true_iff, !strict_eq_true. split.
  - intros [(p & Hp & ->) (w & Hw & ->)]. exists p, w. by rewrite Hp, Hw.
  - intros (p & w & -> & -> & [= Hp Hw]). split; [exists p|exists w]; auto.
Qed.

(** *** The total of a product under the updates of a transfer *)

Lemma foldl_num_add {B} (g : B -> num) (a : num) (l : list B) :
  foldl (fun sum s => num_add sum (g s)) a l
  = num_add a (foldl (fun sum s => num_add sum (g s)) (Int 0) l).
Proof.
  revert a. induction l as [|s l IH]; intros a; cbn [foldl].
  - destruct a; simpl; f_equal; lia.
  - rewrite IH, (IH (num_add (Int 0) (g s))).
    destruct a, (g s), (foldl _ (Int 0) l); simpl; f_equal; lia.
Qed.

Lemma totalQuantity_cons s l pid :
  totalQuantity (s :: l) pid =
  if strict_eq (StockEntry.productId s) pid
  then num_add (StockEntry.quantity s) (totalQuantity l pid)
  else totalQuantity l pid.
Proof.
  unfold totalQuantity, productStock. simpl.
  destruct (strict_eq _ _); [|reflexivity].
  simpl. rewrite foldl_num_add. by destruct (StockEntry.quantity s).
Qed.

Lemma totalQuantity_snoc l s pid :
  strict_eq (StockEntry.productId s) pid = true ->
  totalQuantity (l ++ [s]) pid = num_add (totalQuantity l pid) (StockEntry.quantity s).
Proof.
  intros Hs. induction l as [|x l IH].
  - simpl. rewrite totalQuantity_cons, Hs. unfold totalQuantity. simpl.
    destruct (StockEntry.quantity s); simpl; f_equal; lia.
  - change ((x :: l) ++ [s]) with (x :: (l ++ [s])).
    rewrite !totalQuantity_cons, IH.
    destruct (strict_eq (StockEntry.productId x) pid); [|reflexivity].
    destruct (StockEntry.quantity x), (totalQuantity l pid), (StockEntry.quantity s);
      simpl; f_equal; lia.
Qed.

Lemma totalQuantity_sub l i s pid q :
  l !! i = Some s ->
  strict_eq (StockEntry.productId s) pid = true ->
  totalQuantity (alter (StockEntry.sub_quantity q) i l) pid
  = num_sub (totalQuantity l pid) q.
Proof.
  revert i. induction l as [|x l IH]; intros [|i] Hi Hs; try discriminate.
  - injection Hi as ->. change (alter _ 0%nat (s :: l)) with (StockEntry.sub_quantity q s :: l).
    rewrite !totalQuantity_cons. simpl. rewrite Hs.
    destruct (StockEntry.quantity s), q, (totalQuantity l pid); simpl; f_equal; lia.
  - change (alter ?h (S i) (x :: l)) with (x :: alter h i l).
    rewrite !totalQuantity_cons, (IH i Hi Hs).
    destruct (strict_eq (StockEntry.productId x) pid); [|reflexivity].
    destruct (StockEntry.quantity x), q, (totalQuantity l pid); simpl; f_equal; lia.
Qed.

Lemma totalQuantity_add l i s pid q :
  l !! i = Some s ->
  strict_eq (StockEntry.productId s) pid = true ->
  totalQuantity (alter (StockEntry.add_quantity q) i l) pid
  = num_add (totalQuantity l pid) q.
Proof.
  revert i. induction l as [|x l IH]; intros [|i] Hi Hs; try discriminate.
  - injection Hi as ->. change (alter _ 0%nat (s :: l)) with (StockEntry.add_quantity q s :: l).
    rewrite !totalQuantity_cons. simpl. rewrite Hs.
    destruct (StockEntry.quantity s), q, (totalQuantity l pid); simpl; f_equal; lia.
  - change (alter ?h (S i) (x :: l)) with (x :: alter h i l).
    rewrite !totalQuantity_cons, (IH i Hi Hs).
    destruct (strict_eq (StockEntry.productId x) pid); [|reflexivity].
    destruct (StockEntry.quantity x), q, (totalQuantity l pid); simpl; f_equal; lia.
Qed.

(** A rejected request leaves every file as it was. *)
Lemma rejected_unchanged now st body e :
  fst (createTransfer now st body) = Rejected e ->
  snd (createTransfer now st body) = st.
Proof.
  unfold createTransfer.
  repeat (match goal with
          | |- context [if ?c then _ else _] => destruct c
          | |- context [match ?c with _ => _ end] => destruct c
          end; simpl; try reflexivity; try discriminate).
Qed.

(** What an accepted request went through. *)
Lemma created_inv now st body t :
  fst (createTransfer now st body) = Created t ->
  let pid := parseInt (productId body) in
  let fid := parseInt (fromWarehouseId body) in
  let tid := parseInt (toWarehouseId body) in
  let q := parseInt (quantity body) in
  strict_equals (fromWarehouseId body) (toWarehouseId body) = false /\
  le_zero (quantity body) = false /\
  exists product fromWarehouse toWarehouse i sourceStock,
    find (fun p => strict_eq (Product.id p) pid) (products st) = Some product /\
    find (fun w => strict_eq (Warehouse.id w) fid) (warehouses st) = Some fromWarehouse /\
    find (fun w => strict_eq (Warehouse.id w) tid) (warehouses st) = Some toWarehouse /\
    find_ref (stock_at pid fid) (stock st) = Some (i, sourceStock) /\
    num_lt (StockEntry.quantity sourceStock) q = false /\
    Transfer.transfer t =
      Transfer.mk (next_id (map Transfer.id (transfers st))) pid fid tid q
                  (or_else (notes body) (VStr "")) now "completed" /\
    snd (createTransfer now st body) =
      mkStore (products st) (warehouses st)
              (stock_after pid tid q i (stock st))
              (transfers st ++ [Transfer.transfer t])
              (alerts st).
Proof.
  cbv zeta. unfold createTransfer, stock_after.
  destruct (negb (truthy (productId body)) || _ || _ || _); [discriminate|].
  destruct (strict_equals _ _); [discriminate|].
  destruct (le_zero _); [discriminate|].
  destruct (find _ (products st)) as [product|]; [|discriminate].
  destruct (find _ (warehouses st)) as [fromWarehouse|] eqn:Hfrom; [|discriminate].
  destruct (find (fun w => strict_eq (Warehouse.id w) (parseInt (toWarehouseId body))) _)
    as [toWarehouse|] eqn:Hto; [|discriminate].
  destruct (find_ref _ (stock st)) as [[i sourceStock]|] eqn:Hsrc; [|discriminate].
  destruct (num_lt _ _) eqn:Hlt; [discriminate|].
  simpl. intros [= <-]. do 2 (split; [reflexivity|]).
  exists product, fromWarehouse, toWarehouse, i, sourceStock.
  repeat (split; [first [reflexivity|assumption]|]). reflexivity.
Qed.

Lemma found_is_int {A} (idf : A -> num) (n : num) (l : list A) x :
  find (fun a => strict_eq (idf a) n) l = Some x -> exists z, n = Int z.
Proof.
  intros [_ (z & _ & ->)%strict_eq_true]%find_some. eauto.
Qed.

Lemma unique_pairs_stock_after pid tid q i stock :
  (exists p w, pid = Int p /\ tid = Int w) ->
  unique_pairs stock -> unique_pairs (stock_after pid tid q i stock).
Proof.
  intros (p & w & -> & ->) Hnd. unfold unique_pairs, stock_after in *.
  destruct (find_ref _ _) as [[j d]|] eqn:Hdest.
  - by rewrite !keys_alter.
  - rewrite fmap_app, keys_alter by done. simpl.
    apply NoDup_app. split; [exact Hnd|]. split; [|apply NoDup_singleton].
    intros k Hk ->%list_elem_of_singleton.
    rewrite <- (keys_alter (StockEntry.sub_quantity q) i) in Hk by done.
    apply list_elem_of_fmap in Hk as (s & Hkey & Hs).
    pose proof (find_ref_None _ _ Hdest s Hs) as Hfalse.
    assert (stock_at (Int p) (Int w) s = true) as Htrue
      by (apply stock_at_key; exists p, w; auto).
    congruence.
Qed.

(** C3. If the stock file has at most one entry per (productId,
    warehouseId) pair before a POST, it has at most one per pair after
    it.  An accepted transfer whose destination pair already has an
    entry keeps the number of entries; one whose destination pair has
    none adds exactly one entry. *)
Theorem createTransfer_preserves_unique_pairs now st body :
  unique_pairs (stock st) ->
  let st' := snd (createTransfer now st body) in
  let dest := stock_at (parseInt (productId body)) (parseInt (toWarehouseId body)) in
  unique_pairs (stock st') /\
  (status (fst (createTransfer now st body)) = 201 ->
   (forall s, s ∈ stock st -> dest s = true -> length (stock st') = length (stock st)) /\
   ((forall s, s ∈ stock st -> dest s = false) ->
    length (stock st') = S (length (stock st)))).
Proof.
  intros Hnd. cbv zeta.
  destruct (fst (createTransfer now st body)) as [e|t] eqn:Hres.
  - rewrite (rejected_unchanged _ _ _ _ Hres). split; [exact Hnd|].
    simpl. destruct e; discriminate.
  - destruct (created_inv _ _ _ _ Hres)
      as (_ & _ & product & fromW & toW & i & src & Hp & _ & Hto & _ & _ & _ & ->).
    simpl. split.
    + apply unique_pairs_stock_after; [|exact Hnd].
      destruct (found_is_int _ _ _ _ Hp) as [p ->].
      destruct (found_is_int _ _ _ _ Hto) as [w ->]. eauto.
    + intros _. unfold stock_after.
      pose proof (find_ref_alter_index
                    (stock_at (parseInt (productId body)) (parseInt (toWarehouseId body)))
                    (StockEntry.sub_quantity (parseInt (quantity body)))
                    (stock st) i (fun _ => eq_refl)) as Hidx.
      destruct (find_ref _ (alter _ i (stock st))) as [[j d]|] eqn:Hdest.
      * split; [intros; by rewrite !length_alter|].
        intros Hnone.
        destruct (find_ref _ (stock st)) as [[j' d']|] eqn:Hdest'; [|discriminate].
        apply find_ref_Some in Hdest' as (Hj' & Hd' & _).
        apply list_elem_of_lookup_2 in Hj'. rewrite (Hnone _ Hj') in Hd'. discriminate.
      * split; [|intros; rewrite length_app, length_alter; simpl; lia].
        intros s Hs Hd.
        destruct (find_ref _ (stock st)) as [[j' d']|] eqn:Hdest'; [discriminate|].
        rewrite (find_ref_None _ _ Hdest' s Hs) in Hd. discriminate.
Qed.

Lemma createTransfer_preserves_unique_pairs_witness :
  unique_pairs (stock Sample.store) /\
  unique_pairs (stock (snd (createTransfer Sample.now Sample.store Sample.body_form))).
Proof.
  assert (unique_pairs (stock Sample.store)) as H.
  { unfold unique_pairs. simpl. apply NoDup_cons. split.
    - intros ?%list_elem_of_singleton. discriminate.
    - apply NoDup_singleton. }
  split; [exact H|].
  exact (proj1 (createTransfer_preserves_unique_pairs
                  Sample.now Sample.store Sample.body_form H)).
Defined.

Lemma status_created r : status r = 201 -> exists t, r = Created t.
Proof. destruct r as [e|t]; [destruct e; discriminate|eauto]. Qed.

Lemma stock_at_product pid wid s :
  stock_at pid wid s = true -> strict_eq (StockEntry.productId s) pid = true.
Proof. unfold stock_at. by intros [? _]%andb_true_iff. Qed.

(** What does hold for conservation: an accepted transfer whose quantity
    parses to a number leaves the total of its product as it was, also
    when source and destination are one entry. *)
Lemma numeric_transfer_conserves_total now st body q :
  status (fst (createTransfer now st body)) = 201 ->
  parseInt (quantity body) = Int q ->
  totalQuantity (stock (snd (createTransfer now st body))) (parseInt (productId body))
  = totalQuantity (stock st) (parseInt (productId body)).
Proof.
  intros [t Hres]%status_created Hq.
  destruct (created_inv _ _ _ _ Hres)
    as (_ & _ & product & fromW & toW & i & src & Hp & _ & _ & Hsrc & _ & _ & ->).
  simpl. unfold stock_after. rewrite Hq.
  apply find_ref_Some in Hsrc as (Hi & Hsrc%stock_at_product & _).
  pose proof (totalQuantity_sub _ _ _ _ (Int q) Hi Hsrc) as Hsub.
  destruct (find_ref _ (alter _ i (stock st))) as [[j d]|] eqn:Hdest.
  - apply find_ref_Some in Hdest as (Hj & Hd%stock_at_product & _).
    rewrite (totalQuantity_add _ _ _ _ (Int q) Hj Hd), Hsub.
    apply num_add_sub_cancel.
  - rewrite totalQuantity_snoc, Hsub; [apply num_add_sub_cancel|].
    destruct (found_is_int _ _ _ _ Hp) as [z ->]. simpl. apply Z.eqb_refl.
Qed.

(** What does hold for the source entry: when the two warehouse ids
    parse to different numbers, an accepted transfer takes the parsed
    quantity off the source entry, and the entry held at least that
    much. *)
Lemma distinct_warehouses_decrement_source now st body :
  status (fst (createTransfer now st body)) = 201 ->
  strict_eq (parseInt (fromWarehouseId body)) (parseInt (toWarehouseId body)) = false ->
  exists src,
    source_entry body (stock st) = Some src /\
    source_entry body (stock (snd (createTransfer now st body)))
      = Some (StockEntry.sub_quantity (parseInt (quantity body)) src) /\
    forall b q, StockEntry.quantity src = Int b -> parseInt (quantity body) = Int q ->
                0 <= b - q.
Proof.
  intros [t Hres]%status_created Hdiff.
  destruct (created_inv _ _ _ _ Hres)
    as (_ & _ & product & fromW & toW & i & src & _ & _ & _ & Hsrc & Hlt & _ & ->).
  exists src. unfold source_entry. rewrite !find_ref_find, Hsrc. simpl.
  split; [reflexivity|]. split.
  - unfold stock_after.
    assert (forall q pid wid s, stock_at pid wid (StockEntry.sub_quantity q s) = stock_at pid wid s)
      as Hsubk by reflexivity.
    assert (forall q pid wid s, stock_at pid wid (StockEntry.add_quantity q s) = stock_at pid wid s)
      as Haddk by reflexivity.
    pose proof (find_ref_alter _ (StockEntry.sub_quantity (parseInt (quantity body)))
                  _ i _ _ (Hsubk _ _ _) Hsrc) as Hsrc1.
    rewrite decide_True in Hsrc1 by reflexivity.
    destruct (find_ref (stock_at _ (parseInt (toWarehouseId body))) _)
      as [[j d]|] eqn:Hdest.
    + rewrite (find_ref_alter _ (StockEntry.add_quantity (parseInt (quantity body)))
                 _ j _ _ (Haddk _ _ _) Hsrc1).
      destruct (decide (j = i)) as [->|]; [|reflexivity]. exfalso.
      apply find_ref_Some in Hdest as (Hj & Hd & _).
      apply find_ref_Some in Hsrc1 as (Hi & Hs & _).
      assert (d = StockEntry.sub_quantity (parseInt (quantity body)) src) as -> by congruence.
      apply stock_at_key in Hd as (p & w & _ & Hw & Hk).
      apply stock_at_key in Hs as (p' & w' & _ & Hw' & Hk').
      rewrite Hw, Hw' in Hdiff. simpl in Hdiff.
      assert (w' = w) as -> by congruence.
      rewrite Z.eqb_refl in Hdiff. discriminate.
    + by rewrite (find_ref_app_l _ _ _ _ _ Hsrc1).
  - intros b q Hb Hq. rewrite Hb, Hq in Hlt. apply num_lt_false_ge in Hlt. lia.
Qed.

(** A request whose source entry is absent, or holds less than the
    parsed quantity, is rejected and writes nothing. *)
Lemma short_source_rejected now st body :
  (source_entry body (stock st) = None \/
   exists src, source_entry body (stock st) = Some src /\
               num_lt (StockEntry.quantity src) (parseInt (quantity body)) = true) ->
  exists e, createTransfer now st body = (Rejected e, st).
Proof.
  intros Hshort.
  destruct (fst (createTransfer now st body)) as [e|t] eqn:Hres.
  - exists e. rewrite (surjective_pairing (createTransfer now st body)), Hres.
    by rewrite (rejected_unchanged _ _ _ _ Hres).
  - exfalso.
    destruct (created_inv _ _ _ _ Hres)
      as (_ & _ & product & fromW & toW & i & src & _ & _ & _ & Hsrc & Hlt & _).
    unfold source_entry in Hshort. rewrite find_ref_find, Hsrc in Hshort. simpl in Hshort.
    destruct Hshort as [?|(src' & [= <-] & Hlt')]; congruence.
Qed.

(** C1. At the request
    [{productId: 1, fromWarehouseId: 1, toWarehouseId: 2, quantity: "abc"}]
    the handler answers 201, although the quantity is not a number: the
    total stock of product 1 is 40 before and [NaN] after. *)
Theorem text_quantity_breaks_conservation :
  let r := createTransfer Sample.now Sample.store Sample.body_text_quantity in
  status (fst r) = 201 /\
  totalQuantity (stock Sample.store) (Int 1) = Int 40 /\
  totalQuantity (stock (snd r)) (Int 1) = NaN /\
  stock (snd r) =
    [StockEntry.mk (Int 1) (Int 1) (Int 1) NaN;
     StockEntry.mk (Int 2) (Int 2) (Int 1) (Int 20);
     StockEntry.mk (Int 3) (Int 1) (Int 2) NaN].
Proof. vm_compute. repeat split. Qed.

(** C2. At the request
    [{productId: 1, fromWarehouseId: "1", toWarehouseId: 1, quantity: 10}]
    the handler answers 201 with a transfer of 10, and the source entry
    holds 40 before and 40 after, not 30: the destination it credits is
    the source entry itself. *)
Theorem mixed_ids_source_not_decremented :
  let r := createTransfer Sample.now Sample.store Sample.body_mixed_ids in
  status (fst r) = 201 /\
  (exists t, fst r = Created t /\ Transfer.quantity (Transfer.transfer t) = Int 10) /\
  StockEntry.quantity <$> source_entry Sample.body_mixed_ids (stock Sample.store)
    = Some (Int 40) /\
  StockEntry.quantity <$> source_entry Sample.body_mixed_ids (stock (snd r))
    = Some (Int 40).
Proof. vm_compute. repeat split. eexists. split; reflexivity. Qed.

(** C7. At the request
    [{productId: 1, fromWarehouseId: "1", toWarehouseId: 1, quantity: 10}]
    the two raw ids are not strictly equal, the request is accepted, and
    the Transfer record written has fromWarehouseId = toWarehouseId = 1. *)
Theorem mixed_ids_transfer_within_one_warehouse :
  let r := createTransfer Sample.now Sample.store Sample.body_mixed_ids in
  strict_equals (fromWarehouseId Sample.body_mixed_ids)
                (toWarehouseId Sample.body_mixed_ids) = false /\
  exists t,
    fst r = Created t /\
    transfers (snd r) = [Transfer.transfer t] /\
    Transfer.fromWarehouseId (Transfer.transfer t) = Int 1 /\
    Transfer.toWarehouseId (Transfer.transfer t) = Int 1.
Proof. vm_compute. split; [reflexivity|]. eexists. repeat split. Qed.

(** C5, as stated, fails: a quantity of 0 is answered with the
    missing-fields error, not the invalid-quantity error, and a quantity
    of 2.5 is accepted (as a transfer of 2). *)
Lemma quantity_zero_and_fraction_not_invalid_quantity :
  fst (createTransfer Sample.now Sample.store Sample.body_zero) = Rejected MissingFields /\
  fst (createTransfer Sample.now Sample.store Sample.body_zero) <> Rejected InvalidQuantity /\
  status (fst (createTransfer Sample.now Sample.store Sample.body_fraction)) = 201 /\
  Transfer.quantity <$> transfers (snd (createTransfer Sample.now Sample.store Sample.body_fraction))
    = [Int 2].
Proof. vm_compute. repeat split. discriminate. Qed.

Lemma missing_field_rejected now st body :
  truthy (productId body) && truthy (fromWarehouseId body)
  && truthy (toWarehouseId body) && truthy (quantity body) = false ->
  createTransfer now st body = (Rejected MissingFields, st).
Proof.
  intros H. unfold createTransfer.
  destruct (truthy (productId body)), (truthy (fromWarehouseId body)),
           (truthy (toWarehouseId body)), (truthy (quantity body));
    try reflexivity; discriminate.
Qed.

Lemma zero_quantity_rejected now st body q :
  quantity body = VNum q -> (q == 0)%Q ->
  createTransfer now st body = (Rejected MissingFields, st).
Proof.
  intros Hq Hz. apply missing_field_rejected. rewrite Hq. simpl.
  apply Qeq_bool_iff in Hz. rewrite Hz. simpl. by rewrite !andb_false_r.
Qed.

(** C5, amended. When the four required fields are truthy, the two raw
    warehouse ids are not strictly equal and the quantity compares
    [<= 0], the request is answered 400 with the invalid-quantity error
    and nothing is written: no Transfer is created and the stock is as
    before; a negative number is such a quantity.  When the quantity is
    falsy, and so when it is the number 0, the request is answered 400
    with the missing-fields error, whatever its other fields, and nothing
    is written. *)
Theorem nonpositive_quantity_rejected now st body :
  (truthy (productId body) = true ->
   truthy (fromWarehouseId body) = true ->
   truthy (toWarehouseId body) = true ->
   truthy (quantity body) = true ->
   strict_equals (fromWarehouseId body) (toWarehouseId body) = false ->
   le_zero (quantity body) = true ->
   createTransfer now st body = (Rejected InvalidQuantity, st)) /\
  (truthy (quantity body) = false ->
   createTransfer now st body = (Rejected MissingFields, st)) /\
  (forall q, quantity body = VNum q -> (q == 0)%Q ->
             createTransfer now st body = (Rejected MissingFields, st)) /\
  (forall q, quantity body = VNum q -> (q < 0)%Q ->
             truthy (productId body) = true ->
             truthy (fromWarehouseId body) = true ->
             truthy (toWarehouseId body) = true ->
             strict_equals (fromWarehouseId body) (toWarehouseId body) = false ->
             createTransfer now st body = (Rejected InvalidQuantity, st)) /\
  status (Rejected InvalidQuantity) = 400 /\
  error_message InvalidQuantity = "Quantity must be greater than 0"%string /\
  status (Rejected MissingFields) = 400 /\
  error_message MissingFields = "Missing required fields"%string.
Proof.
  split; [|split; [|split; [|split]]].
  - intros Hp Hf Ht Hq Hne Hle. unfold createTransfer.
    by rewrite Hp, Hf, Ht, Hq, Hne, Hle.
  - intros Hq. apply missing_field_rejected. by rewrite Hq, andb_false_r.
  - intros q. apply zero_quantity_rejected.
  - intros q Hq Hneg Hp Hf Ht Hne. unfold createTransfer.
    rewrite Hp, Hf, Ht, Hne, Hq. simpl.
    assert (Qeq_bool q 0 = false) as ->.
    { destruct (Qeq_bool q 0) eqn:E; [|reflexivity].
      apply Qeq_bool_iff in E. rewrite E in Hneg. by apply Qlt_irrefl in Hneg. }
    simpl. unfold le_zero. simpl.
    assert (Qle_bool q 0 = true) as ->
      by (apply Qle_bool_iff; by apply Qlt_le_weak).
    reflexivity.
  - by repeat split.
Qed.

Lemma nonpositive_quantity_rejected_witness :
  le_zero (quantity Sample.body_negative) = true /\
  createTransfer Sample.now Sample.store Sample.body_negative
    = (Rejected InvalidQuantity, Sample.store) /\
  truthy (quantity Sample.body_zero) = false /\
  createTransfer Sample.now Sample.store Sample.body_zero
    = (Rejected MissingFields, Sample.store).
Proof.
  split; [reflexivity|]. split.
  - exact (proj1 (nonpositive_quantity_rejected
                    Sample.now Sample.store Sample.body_negative)
                 eq_refl eq_refl eq_refl eq_refl eq_refl eq_refl).
  - split; [reflexivity|].
    exact (proj1 (proj2 (nonpositive_quantity_rejected
                           Sample.now Sample.store Sample.body_zero))
                 eq_refl).
Defined.

(** C6, as stated, fails: with equal warehouse ids and a quantity of 0
    the answer is the missing-fields error, not the same-warehouse
    error. *)
Lemma same_warehouse_zero_quantity_missing_fields :
  strict_equals (fromWarehouseId Sample.body_same_zero)
                (toWarehouseId Sample.body_same_zero) = true /\
  fst (createTransfer Sample.now Sample.store Sample.body_same_zero)
    = Rejected MissingFields /\
  fst (createTransfer Sample.now Sample.store Sample.body_same_zero)
    <> Rejected SameWarehouse.
Proof. vm_compute. repeat split. discriminate. Qed.

(** C6, amended. When the four required fields are truthy and
    fromWarehouseId is strictly equal to toWarehouseId, the request is
    answered 400 with the same-warehouse error whatever the other fields
    hold, and nothing is written.  When a required field is missing
    (falsy), and so when the quantity is the number 0, the request is
    answered 400 with the missing-fields error instead, also when the
    two warehouse ids are equal, and nothing is written. *)
Theorem same_warehouse_rejected now st body :
  (truthy (productId body) = true ->
   truthy (fromWarehouseId body) = true ->
   truthy (toWarehouseId body) = true ->
   truthy (quantity body) = true ->
   strict_equals (fromWarehouseId body) (toWarehouseId body) = true ->
   createTransfer now st body = (Rejected SameWarehouse, st)) /\
  (truthy (productId body) = false \/ truthy (fromWarehouseId body) = false \/
   truthy (toWarehouseId body) = false \/ truthy (quantity body) = false ->
   createTransfer now st body = (Rejected MissingFields, st)) /\
  (forall q, quantity body = VNum q -> (q == 0)%Q ->
             createTransfer now st body = (Rejected MissingFields, st)) /\
  status (Rejected SameWarehouse) = 400 /\
  error_message SameWarehouse
    = "Source and destination warehouses must be different"%string /\
  status (Rejected MissingFields) = 400 /\
  error_message MissingFields = "Missing required fields"%string.
Proof.
  split; [|split; [|split]].
  - intros Hp Hf Ht Hq Heq. unfold createTransfer.
    by rewrite Hp, Hf, Ht, Hq, Heq.
  - intros Hmiss. apply missing_field_rejected.
    destruct Hmiss as [-> | [-> | [-> | ->]]]; by rewrite ?andb_false_r.
  - intros q. apply zero_quantity_rejected.
  - by repeat split.
Qed.

Lemma same_warehouse_rejected_witness :
  createTransfer Sample.now Sample.store Sample.body_same
    = (Rejected SameWarehouse, Sample.store) /\
  createTransfer Sample.now Sample.store Sample.body_same_zero
    = (Rejected MissingFields, Sample.store).
Proof.
  split.
  - exact (proj1 (same_warehouse_rejected Sample.now Sample.store Sample.body_same)
                 eq_refl eq_refl eq_refl eq_refl eq_refl).
  - exact (proj1 (proj2 (same_warehouse_rejected
                           Sample.now Sample.store Sample.body_same_zero))
                 (or_intror (or_intror (or_intror eq_refl)))).
Defined.

End TransferFacts.

(** ** The alert engine *)

Module AlertFacts.
Import Alerts.

(** *** Sorting *)

Section Sort.
Context {A : Type} (key : A -> Z).
Implicit Types (x : A) (l : list A).

Lemma sort_insert_perm x l :
  Permutation (sort_insert (fun a b => key a - key b) x l) (x :: l).
Proof.
  induction l as [|y l IH]; simpl; [reflexivity|].
  destruct (key x - key y <=? 0); [reflexivity|].
  rewrite IH. apply perm_swap.
Qed.

Lemma array_sort_perm l :
  Permutation (array_sort (fun a b => key a - key b) l) l.
Proof.
  induction l as [|x l IH]; simpl; [reflexivity|].
  unfold array_sort in *. simpl. by rewrite sort_insert_perm, IH.
Qed.

Lemma sort_insert_sorted x l :
  StronglySorted (fun a b => key a <= key b) l ->
  StronglySorted (fun a b => key a <= key b)
                 (sort_insert (fun a b => key a - key b) x l).
Proof.
  induction 1 as [|y l Hl IH Hy]; simpl.
  - repeat constructor.
  - destruct (key x - key y <=? 0) eqn:E.
    + apply Z.leb_le in E. constructor; [by constructor|].
      constructor; [lia|].
      eapply Forall_impl; [exact Hy|]. intros; simpl in *; lia.
    + apply Z.leb_gt in E. constructor; [exact IH|].
      rewrite sort_insert_perm. constructor; [lia|exact Hy].
Qed.

Lemma array_sort_sorted l :
  StronglySorted (fun a b => key a <= key b)
                 (array_sort (fun a b => key a - key b) l).
Proof.
  induction l as [|x l IH]; [constructor|].
  unfold array_sort in *. simpl. by apply sort_insert_sorted.
Qed.

(** Stability: the elements of one key come out in the order they
    went in. *)
Lemma sort_insert_filter k x l :
  List.filter (fun a => key a =? k) (sort_insert (fun a b => key a - key b) x l)
  = List.filter (fun a => key a =? k) (x :: l).
Proof.
  induction l as [|y l IH]; [reflexivity|]. simpl in *.
  destruct (key x - key y <=? 0) eqn:E; [reflexivity|].
  apply Z.leb_gt in E. simpl. rewrite IH.
  destruct (key x =? k) eqn:Ex, (key y =? k) eqn:Ey; try reflexivity.
  apply Z.eqb_eq in Ex, Ey. lia.
Qed.

Lemma array_sort_filter k l :
  List.filter (fun a => key a =? k) (array_sort (fun a b => key a - key b) l)
  = List.filter (fun a => key a =? k) l.
Proof.
  induction l as [|x l IH]; [reflexivity|].
  unfold array_sort in *. simpl foldr. rewrite sort_insert_filter. simpl.
  by rewrite IH.
Qed.
End Sort.

Lemma computeAlerts_perm st :
  Permutation (computeAlerts st) (map (productAlert st) (products st)).
Proof. apply (array_sort_perm rank). Qed.

Lemma computeAlerts_elem st a :
  a ∈ computeAlerts st <-> exists p, p ∈ products st /\ a = productAlert st p.
Proof.
  rewrite computeAlerts_perm. change (map ?f ?l) with (f <$> l).
  rewrite list_elem_of_fmap. split; intros (p & H1 & H2); exists p; auto.
Qed.

Lemma StronglySorted_rank {A} (R R' : A -> A -> Prop) (l : list A) :
  (forall a b, R a b -> R' a b) -> StronglySorted R l -> StronglySorted R' l.
Proof.
  intros HR. induction 1 as [|x l Hl IH Hx]; constructor; [exact IH|].
  eapply Forall_impl; [exact Hx|]. intros; by apply HR.
Qed.

(** C10. The alerts come out in ascending order of severity rank, the
    rank being critical 0, high 1, medium 2, low 3, which is the table the
    handler sorts by; they are the alerts of the products, each once; and
    the alerts of any one severity are those of the products of that
    severity in the order of the Product collection. *)
Theorem computeAlerts_sorted_stable st :
  (forall sev, severityOrder sev = Notions.claimed_rank sev) /\
  StronglySorted (fun a b => Notions.claimed_rank (severity a)
                             <= Notions.claimed_rank (severity b))
                 (computeAlerts st) /\
  Permutation (computeAlerts st) (map (productAlert st) (products st)) /\
  forall sev,
    List.filter (fun a => Notions.claimed_rank (severity a) =? Notions.claimed_rank sev)
                (computeAlerts st)
    = map (productAlert st)
          (List.filter (fun p => Notions.claimed_rank (severity (productAlert st p))
                                 =? Notions.claimed_rank sev)
                       (products st)).
Proof.
  assert (forall sev, severityOrder sev = Notions.claimed_rank sev) as Hrank
    by (by intros []).
  split; [exact Hrank|].
  split.
  { eapply StronglySorted_rank; [|apply (array_sort_sorted rank)].
    intros a b. unfold rank. by rewrite !Hrank. }
  split; [apply computeAlerts_perm|].
  intros sev. unfold computeAlerts.
  change (fun a => Notions.claimed_rank (severity a) =? Notions.claimed_rank sev)
    with (fun a => rank a =? severityOrder sev).
  change (fun p => Notions.claimed_rank (severity (productAlert st p))
                   =? Notions.claimed_rank sev)
    with (fun p => rank (productAlert st p) =? severityOrder sev).
  rewrite (array_sort_filter rank).
  induction (products st) as [|p l IH]; [reflexivity|].
  simpl. destruct (rank (productAlert st p) =? severityOrder sev); simpl; by rewrite IH.
Qed.

(** *** Classification *)

Lemma lt_threshold_spec t q : lt_threshold (Int t) q = true <-> (inject_Z t < q)%Q.
Proof.
  simpl. rewrite negb_true_iff, <- not_true_iff_false, Qle_bool_iff.
  split; [apply Qnot_le_lt|apply Qlt_not_le].
Qed.

Lemma gt_threshold_spec t q : gt_threshold (Int t) q = true <-> (q < inject_Z t)%Q.
Proof.
  simpl. rewrite negb_true_iff, <- not_true_iff_false, Qle_bool_iff.
  split; [apply Qnot_le_lt|apply Qlt_not_le].
Qed.

(** The four outcomes of the classification of one product, by the
    three tests the handler makes in turn. *)
Lemma productAlert_cases st p :
  let a := productAlert st p in
  let total := totalQuantity (stock st) (Product.id p) in
  let rp := Product.reorderPoint p in
  (lt_threshold total (rp * (1 # 2)) = true /\
   status a = Critical /\ severity a = SevCritical /\
   recommendedAction a = "URGENT: Immediate reorder required"%string /\
   reorderQuantity a = ceil_minus (rp * 2) total) \/
  (lt_threshold total (rp * (1 # 2)) = false /\ lt_threshold total rp = true /\
   status a = Low /\ severity a = SevHigh /\
   recommendedAction a = "Reorder recommended"%string /\
   reorderQuantity a = ceil_minus (rp * (3 # 2)) total) \/
  (lt_threshold total (rp * (1 # 2)) = false /\ lt_threshold total rp = false /\
   gt_threshold total (rp * 3) = true /\
   status a = Overstocked /\ severity a = SevMedium /\
   recommendedAction a = "Consider redistribution or promotion"%string /\
   reorderQuantity a = Int 0) \/
  (lt_threshold total (rp * (1 # 2)) = false /\ lt_threshold total rp = false /\
   gt_threshold total (rp * 3) = false /\
   status a = Adequate /\ severity a = SevLow /\
   recommendedAction a = "Stock levels healthy"%string /\
   reorderQuantity a = Int 0).
Proof.
  cbv zeta. unfold productAlert.
  destruct (lt_threshold _ (_ * (1 # 2))) eqn:E1; [left; repeat split|right].
  destruct (lt_threshold _ (Product.reorderPoint p)) eqn:E2;
    [left; repeat split|right].
  destruct (gt_threshold _ _) eqn:E3; [left|right]; repeat split.
Qed.

(** The fields of an alert that do not depend on the classification. *)
Lemma productAlert_fields st p :
  let a := productAlert st p in
  let alertRecord :=
    find (fun r => strict_eq (AlertAcknowledgment.productId r) (Product.id p)) (alerts st) in
  productId a = Product.id p /\
  currentStock a = totalQuantity (stock st) (Product.id p) /\
  acknowledged a = from_option AlertAcknowledgment.acknowledged false alertRecord /\
  acknowledgedAt a
    = from_option (fun r => or_else (AlertAcknowledgment.acknowledgedAt r) VNull) VNull alertRecord /\
  acknowledgedBy a
    = from_option (fun r => or_else (AlertAcknowledgment.acknowledgedBy r) VNull) VNull alertRecord.
Proof.
  cbv zeta. unfold productAlert.
  destruct (lt_threshold _ (_ * (1 # 2))); [|destruct (lt_threshold _ (Product.reorderPoint p));
    [|destruct (gt_threshold _ _)]];
    (destruct (find _ (alerts st)) as [r|]; simpl; rewrite ?orb_false_r; repeat split).
Qed.

(** C4. For a product of the collection with a non-negative reorder
    point and total stock [t]: below half the reorder point it is
    critical with reorder quantity ceil(2 rp - t); from half the reorder
    point and below the reorder point it is low with reorder quantity
    ceil(1.5 rp - t); above three times the reorder point it is
    overstocked; in no such case it is adequate.  With a reorder point
    of 100: 50 is low, 49 critical, 100 and 300 adequate, 301
    overstocked. *)
Theorem classification_table st p t :
  p ∈ products st ->
  (0 <= Product.reorderPoint p)%Q ->
  totalQuantity (stock st) (Product.id p) = Int t ->
  let a := productAlert st p in
  let rp := Product.reorderPoint p in
  let total := inject_Z t in
  a ∈ computeAlerts st /\
  currentStock a = Int t /\
  (total < (1 # 2) * rp ->
   status a = Critical /\ reorderQuantity a = Int (Qceiling (2 * rp - total)))%Q /\
  ((1 # 2) * rp <= total /\ total < rp ->
   status a = Low /\ reorderQuantity a = Int (Qceiling ((3 # 2) * rp - total)))%Q /\
  (3 * rp < total -> status a = Overstocked /\ reorderQuantity a = Int 0)%Q /\
  (~ total < (1 # 2) * rp -> ~ ((1 # 2) * rp <= total /\ total < rp) ->
   ~ 3 * rp < total -> status a = Adequate /\ reorderQuantity a = Int 0)%Q /\
  ((rp == 100)%Q ->
   (t = 50 -> status a = Low) /\ (t = 49 -> status a = Critical) /\
   (t = 100 -> status a = Adequate) /\
   (t = 300 -> status a = Adequate) /\ (t = 301 -> status a = Overstocked)).
Proof.
  intros Hp Hrp Ht. cbv zeta.
  split; [apply computeAlerts_elem; eauto|].
  split; [rewrite <- Ht; apply productAlert_fields|].
  pose proof (productAlert_cases st p) as Hc. cbv zeta in Hc. rewrite Ht in Hc.
  set (a := productAlert st p) in *. set (rp := Product.reorderPoint p) in *.
  assert (forall x y : Q, (x == y)%Q -> Int (Qceiling (x - inject_Z t)) = Int (Qceiling (y - inject_Z t)))
    as Hceil by (intros x y Hxy; f_equal; apply Qceiling_comp; by rewrite Hxy).
  destruct Hc as [(E1 & Hs & _ & _ & Hq)|[(E1 & E2 & Hs & _ & _ & Hq)
    |[(E1 & E2 & E3 & Hs & _ & _ & Hq)|(E1 & E2 & E3 & Hs & _ & _ & Hq)]]];
    try apply lt_threshold_spec in E1; try apply lt_threshold_spec in E2;
    try apply gt_threshold_spec in E3;
    try (apply not_true_iff_false in E1; rewrite lt_threshold_spec in E1);
    try (apply not_true_iff_false in E2; rewrite lt_threshold_spec in E2);
    try (apply not_true_iff_false in E3; rewrite gt_threshold_spec in E3);
    rewrite Hs, Hq; simpl ceil_minus.
  - split; [intros _; split; [reflexivity|apply Hceil; ring]|].
    split; [intros [? ?]; exfalso; lra|].
    split; [intros ?; exfalso; lra|].
    split; [intros ?; exfalso; lra|].
    intros Hrp100. repeat split; intros ->; try reflexivity; exfalso;
      rewrite Hrp100 in E1; revert E1; unfold Qlt; simpl; lia.
  - split; [intros ?; exfalso; lra|].
    split; [intros _; split; [reflexivity|apply Hceil; ring]|].
    split; [intros ?; exfalso; lra|].
    split; [intros ? Hn; exfalso; apply Hn; lra|].
    intros Hrp100. repeat split; intros ->; try reflexivity; exfalso;
      rewrite Hrp100 in E1, E2; revert E1 E2; unfold Qlt; simpl; lia.
  - split; [intros ?; exfalso; lra|].
    split; [intros [? ?]; exfalso; lra|].
    split; [intros _; split; reflexivity|].
    split; [intros _ _ Hn; exfalso; apply Hn; lra|].
    intros Hrp100. repeat split; intros ->; try reflexivity; exfalso;
      rewrite Hrp100 in E1, E2, E3; revert E1 E2 E3; unfold Qlt; simpl; lia.
  - split; [intros ?; exfalso; lra|].
    split; [intros [? ?]; exfalso; lra|].
    split; [intros ?; exfalso; lra|].
    split; [intros _ _ _; split; reflexivity|].
    intros Hrp100. repeat split; intros ->; try reflexivity; exfalso;
      rewrite Hrp100 in E1, E2, E3; revert E1 E2 E3; unfold Qlt; simpl; lia.
Qed.

Lemma classification_table_witness :
  let p := Product.mk (Int 1) "SKU-1" "Bamboo Spork" "Utensils" (5 # 2) 100 in
  (0 <= Product.reorderPoint p)%Q /\
  totalQuantity (stock Sample.store) (Product.id p) = Int 40 /\
  status (productAlert Sample.store p) = Critical /\
  reorderQuantity (productAlert Sample.store p) = Int 160.
Proof.
  cbv zeta. split; [discriminate|]. split; [reflexivity|].
  refine (proj1 (proj2 (proj2 (classification_table Sample.store _ 40 _ _ _))) _).
  - apply list_elem_of_here.
  - discriminate.
  - reflexivity.
  - reflexivity.
Defined.

(** C9, as stated, fails: the action of a critical product is not
    "Immediate reorder required" and that of an adequate product is not
    "No action needed". *)
Lemma critical_and_adequate_action_texts :
  let p1 := Product.mk (Int 1) "SKU-1" "Bamboo Spork" "Utensils" (5 # 2) 100 in
  let p2 := Product.mk (Int 2) "SKU-2" "Hemp Tote" "Bags" 4 10 in
  products Sample.store = [p1; p2] /\
  status (productAlert Sample.store p1) = Critical /\
  recommendedAction (productAlert Sample.store p1)
    = "URGENT: Immediate reorder required"%string /\
  recommendedAction (productAlert Sample.store p1)
    <> "Immediate reorder required"%string /\
  status (productAlert Sample.store p2) = Adequate /\
  recommendedAction (productAlert Sample.store p2) = "Stock levels healthy"%string /\
  recommendedAction (productAlert Sample.store p2) <> "No action needed"%string.
Proof. vm_compute. repeat split; discriminate. Qed.

(** C9, amended. The recommendedAction of every alert returned is the
    text of its status: "URGENT: Immediate reorder required" for
    critical, "Reorder recommended" for low, "Consider redistribution or
    promotion" for overstocked, "Stock levels healthy" for adequate. *)
Theorem recommendedAction_by_status st :
  Forall (fun a => recommendedAction a = action_of_status (status a)) (computeAlerts st).
Proof.
  apply Forall_forall. intros a (p & _ & ->)%computeAlerts_elem.
  destruct (productAlert_cases st p)
    as [(_ & -> & _ & -> & _)|[(_ & _ & -> & _ & -> & _)
       |[(_ & _ & _ & -> & _ & -> & _)|(_ & _ & _ & -> & _ & -> & _)]]];
    reflexivity.
Qed.

(** *** Acknowledgment *)

Lemma find_after_upsert (f : AlertAcknowledgment.t -> bool) l d :
  f d = true ->
  find f (match fst <$> find_ref f l with
          | Some i => <[i := d]> l
          | None => l ++ [d]
          end) = Some d.
Proof.
  intros Hd. rewrite find_ref_find.
  destruct (find_ref f l) as [[i x]|] eqn:Hfind; simpl.
  - apply find_ref_Some in Hfind as (Hi & _ & Hleast).
    unfold find_ref.
    rewrite (proj2 (list_find_insert_Some _ l i i d d)); [reflexivity|].
    right; left. split; [reflexivity|]. split; [reflexivity|].
    split; [by eapply lookup_lt_Some|]. split; [by apply Is_true_true|].
    intros j y Hj Hlt. rewrite Is_true_true, (Hleast j y Hj Hlt). discriminate.
  - unfold find_ref in *. rewrite list_find_app_r by exact Hfind.
    simpl. rewrite decide_True by (by apply Is_true_true). reflexivity.
Qed.






End AlertFacts.

(** ** More on the transfer engine *)

Module TransferMore.
Import Transfers TransferFacts.

Lemma find_Some_elem {A} (f : A -> bool) (l : list A) x :
  find f l = Some x -> x ∈ l /\ f x = true.
Proof. intros [Hin Hf]%find_some. split; [by apply list_elem_of_In|exact Hf]. Qed.

(** X1. A POST request that is not answered 201 is answered 400, 404 or
    500.  Answered 400 or 404 it writes nothing.  Answered 500 it leaves
    the products, the warehouses, the stock and the acknowledgments as
    they were, and the transfer history too unless [stock.json] could not
    be written: then the history already holds the new transfer, and the
    stock does not show it.  A body that is [null] is answered 500. *)
Theorem unaccepted_request_effect disk now st body :
  let r := TransferEndpoint.post disk now st body in
  TransferEndpoint.answer_status (fst r) <> 201 ->
  (TransferEndpoint.answer_status (fst r) = 400 \/
   TransferEndpoint.answer_status (fst r) = 404 \/
   TransferEndpoint.answer_status (fst r) = 500) /\
  (TransferEndpoint.answer_status (fst r) <> 500 -> snd r = st) /\
  (body = None -> r = (TransferEndpoint.ServerError, st)) /\
  products (snd r) = products st /\
  warehouses (snd r) = warehouses st /\
  stock (snd r) = stock st /\
  alerts (snd r) = alerts st /\
  (transfers (snd r) = transfers st \/
   fst r = TransferEndpoint.ServerError /\
   TransferEndpoint.stock_writable disk = false /\
   exists body' t, body = Some body' /\
                   fst (createTransfer now st body') = Created t /\
                   transfers (snd r) = transfers st ++ [Transfer.transfer t]) /\
  (forall body' t,
     body = Some body' ->
     fst (createTransfer now st body') = Created t ->
     TransferEndpoint.readable disk = true ->
     TransferEndpoint.transfers_writable disk = true ->
     TransferEndpoint.stock_writable disk = false ->
     fst r = TransferEndpoint.ServerError /\
     transfers (snd r) = transfers st ++ [Transfer.transfer t]).
Proof.
  cbv zeta. unfold TransferEndpoint.post.
  destruct body as [body|]; simpl.
  2:{ intros _. do 8 (split; [auto; try discriminate|]). intros ? ? [=]. }
  destruct (createTransfer now st body) as [[e|t] st'] eqn:Hres.
  - intros _.
    destruct (TransferEndpoint.before_reading e || TransferEndpoint.readable disk)
      eqn:Hread; simpl.
    + split; [destruct e; simpl; auto|].
      do 7 (split; [auto; try discriminate|]).
      intros body' t [= <-]. rewrite Hres. discriminate.
    + do 8 (split; [auto; try discriminate|]).
      intros body' t [= <-]. rewrite Hres. discriminate.
  - assert (fst (createTransfer now st body) = Created t) as Hfst by (by rewrite Hres).
    destruct (created_inv _ _ _ _ Hfst)
      as (_ & _ & product & fromW & toW & k & src & _ & _ & _ & _ & _ & _ & Hst').
    rewrite Hres in Hst'. simpl in Hst'. subst st'.
    destruct (TransferEndpoint.readable disk); simpl.
    2:{ intros _. do 8 (split; [auto; try discriminate|]). intros ? ? _ _ [=]. }
    destruct (TransferEndpoint.transfers_writable disk); simpl.
    2:{ intros _. do 8 (split; [auto; try discriminate|]). intros ? ? _ _ _ [=]. }
    destruct (TransferEndpoint.stock_writable disk); simpl.
    { intros H. by destruct H. }
    intros _. split; [auto|]. split; [intros H; by destruct H|].
    split; [discriminate|].
    do 4 (split; [reflexivity|]).
    split.
    + right. split; [reflexivity|]. split; [reflexivity|].
      exists body, t. by rewrite Hres.
    + intros body' t' [= <-]. rewrite Hres. simpl. intros [= <-] _ _ _. by split.
Qed.

Lemma unaccepted_request_effect_witness :
  TransferEndpoint.answer_status
    (fst (TransferEndpoint.post Scenario.disk_stock_locked Sample.now Sample.store
                                (Some Sample.body_form))) <> 201 /\
  stock (snd (TransferEndpoint.post Scenario.disk_stock_locked Sample.now Sample.store
                                    (Some Sample.body_form)))
  = stock Sample.store /\
  length (transfers (snd (TransferEndpoint.post Scenario.disk_stock_locked Sample.now
                                                Sample.store (Some Sample.body_form))))
  = S (length (transfers Sample.store)).
Proof.
  split; [discriminate|].
  destruct (unaccepted_request_effect Scenario.disk_stock_locked Sample.now Sample.store
                                      (Some Sample.body_form) ltac:(discriminate))
    as (_ & _ & _ & _ & _ & Hstock & _ & _ & Hlate).
  split; [exact Hstock|].
  destruct (Hlate Sample.body_form _ eq_refl eq_refl eq_refl eq_refl eq_refl) as [_ ->].
  rewrite length_app. simpl. lia.
Defined.

Lemma untouched_files now st body :
  products (snd (createTransfer now st body)) = products st /\
  warehouses (snd (createTransfer now st body)) = warehouses st /\
  alerts (snd (createTransfer now st body)) = alerts st.
Proof.
  destruct (fst (createTransfer now st body)) as [e|t] eqn:Hres.
  - by rewrite (rejected_unchanged _ _ _ _ Hres).
  - destruct (created_inv _ _ _ _ Hres)
      as (_ & _ & product & fromW & toW & k & src & _ & _ & _ & _ & _ & _ & ->).
    by simpl.
Qed.


(** X4. The insufficient-stock answer reports the request's own quantity
    and, as available amount, what [getAvailableStock] of the transfers
    page shows for the product and source warehouse; it is given only
    when the source entry is absent or holds less than the parsed
    quantity. *)
Theorem insufficient_stock_report now st body name available requested :
  fst (createTransfer now st body) = Rejected (InsufficientStock name available requested) ->
  requested = quantity body /\
  available = TransfersPage.getAvailableStock (stock st) (productId body) (fromWarehouseId body) /\
  (exists w, find (fun w => strict_eq (Warehouse.id w) (parseInt (fromWarehouseId body)))
                  (warehouses st) = Some w /\ name = Warehouse.name w) /\
  (source_entry body (stock st) = None \/
   exists src, source_entry body (stock st) = Some src /\
               num_lt (StockEntry.quantity src) (parseInt (quantity body)) = true).
Proof.
  unfold source_entry, TransfersPage.getAvailableStock.
  change (fun s => strict_eq (StockEntry.productId s) (parseInt (productId body))
                   && strict_eq (StockEntry.warehouseId s) (parseInt (fromWarehouseId body)))
    with (stock_at (parseInt (productId body)) (parseInt (fromWarehouseId body))).
  rewrite find_ref_find. unfold createTransfer.
  destruct (truthy (productId body)), (truthy (fromWarehouseId body)),
           (truthy (toWarehouseId body)), (truthy (quantity body)); simpl;
    try discriminate.
  destruct (strict_equals _ _); [discriminate|].
  destruct (le_zero _); [discriminate|].
  destruct (find _ (products st)); [|discriminate].
  destruct (find _ (warehouses st)) as [fromW|]; [|discriminate].
  destruct (find (fun w => strict_eq (Warehouse.id w) (parseInt (toWarehouseId body))) _);
    [|discriminate].
  destruct (find_ref _ (stock st)) as [[i src]|]; simpl.
  - destruct (num_lt _ _) eqn:Hlt; [|discriminate].
    intros [= <- <- <-]. repeat (split; [eauto|]). eauto.
  - intros [= <- <- <-]. repeat (split; [eauto|]). eauto.
Qed.

Lemma insufficient_stock_report_witness :
  fst (createTransfer Sample.now Sample.store Scenario.body_too_much)
  = Rejected (InsufficientStock "North Hub" (Int 40) (VStr "50")) /\
  Int 40 = TransfersPage.getAvailableStock (stock Sample.store) (VStr "1") (VStr "1").
Proof.
  split; [reflexivity|].
  exact (proj1 (proj2 (insufficient_stock_report
                         Sample.now Sample.store Scenario.body_too_much
                         "North Hub" (Int 40) (VStr "50") eq_refl))).
Defined.

(** *** Totals of the other products *)

Lemma totalQuantity_alter_other (h : StockEntry.t -> StockEntry.t) l i pid :
  (forall s, StockEntry.productId (h s) = StockEntry.productId s) ->
  (forall s, l !! i = Some s -> strict_eq (StockEntry.productId s) pid = false) ->
  totalQuantity (alter h i l) pid = totalQuantity l pid.
Proof.
  intros Hh. revert i. induction l as [|x l IH]; intros [|i] Hi; try reflexivity.
  - change (alter h 0%nat (x :: l)) with (h x :: l).
    rewrite !totalQuantity_cons, Hh, (Hi x eq_refl). reflexivity.
  - change (alter h (S i) (x :: l)) with (x :: alter h i l).
    rewrite !totalQuantity_cons, (IH i Hi). reflexivity.
Qed.

Lemma totalQuantity_snoc_other l s pid :
  strict_eq (StockEntry.productId s) pid = false ->
  totalQuantity (l ++ [s]) pid = totalQuantity l pid.
Proof.
  intros Hs. induction l as [|x l IH].
  - simpl. by rewrite totalQuantity_cons, Hs.
  - change ((x :: l) ++ [s]) with (x :: (l ++ [s])).
    by rewrite !totalQuantity_cons, IH.
Qed.

Lemma strict_eq_trans_false a b c :
  strict_eq a b = true -> strict_eq b c = false -> strict_eq a c = false.
Proof. intros (z & -> & ->)%strict_eq_true. by destruct c. Qed.

(** An accepted transfer of a numeric quantity and the total of any
    product. *)
Lemma numeric_transfer_keeps_total now st body q pid' :
  status (fst (createTransfer now st body)) = 201 ->
  parseInt (quantity body) = Int q ->
  totalQuantity (stock (snd (createTransfer now st body))) pid'
  = totalQuantity (stock st) pid'.
Proof.
  intros Hok Hq.
  destruct (strict_eq (parseInt (productId body)) pid') eqn:Hsame.
  { apply strict_eq_true in Hsame as (z & Hz & ->). rewrite <- Hz.
    by apply (numeric_transfer_conserves_total _ _ _ q). }
  destruct (status_created _ Hok) as [t Hres].
  destruct (created_inv _ _ _ _ Hres)
    as (_ & _ & product & fromW & toW & i & src & Hp & _ & _ & Hsrc & _ & _ & ->).
  simpl. unfold stock_after.
  apply find_ref_Some in Hsrc as (Hi & Hsrc%stock_at_product & _).
  assert (totalQuantity (alter (StockEntry.sub_quantity (parseInt (quantity body))) i (stock st)) pid'
          = totalQuantity (stock st) pid') as H1.
  { apply totalQuantity_alter_other; [reflexivity|].
    intros s Hs. assert (s = src) as -> by congruence.
    by apply (strict_eq_trans_false _ (parseInt (productId body))). }
  destruct (find_ref _ (alter _ i (stock st))) as [[j d]|] eqn:Hdest.
  - apply find_ref_Some in Hdest as (Hj & Hd%stock_at_product & _).
    rewrite totalQuantity_alter_other; [exact H1|reflexivity|].
    intros s Hs. assert (s = d) as -> by congruence.
    by apply (strict_eq_trans_false _ (parseInt (productId body))).
  - rewrite totalQuantity_snoc_other; [exact H1|exact Hsame].
Qed.

(** X5. An accepted transfer whose quantity parses to a number leaves the
    total stock of every product as it was, the product moved and all
    the others. *)
Theorem numeric_transfer_keeps_every_total now st body q :
  status (fst (createTransfer now st body)) = 201 ->
  parseInt (quantity body) = Int q ->
  forall pid,
    totalQuantity (stock (snd (createTransfer now st body))) pid
    = totalQuantity (stock st) pid.
Proof. intros Hok Hq pid. by apply (numeric_transfer_keeps_total _ _ _ q). Qed.

Lemma numeric_transfer_keeps_every_total_witness :
  status (fst (createTransfer Sample.now Sample.store Sample.body_form)) = 201 /\
  parseInt (quantity Sample.body_form) = Int 10 /\
  forall pid, totalQuantity (stock Scenario.after_transfer) pid
              = totalQuantity (stock Sample.store) pid.
Proof.
  split; [reflexivity|]. split; [reflexivity|].
  exact (numeric_transfer_keeps_every_total
           Sample.now Sample.store Sample.body_form 10 eq_refl eq_refl).
Defined.

(** *** Where the quantity goes *)

Lemma find_snoc_new {A} (f : A -> bool) (l : list A) x :
  find_ref f l = None -> f x = true -> find f (l ++ [x]) = Some x.
Proof.
  intros Hnone Hx. rewrite find_ref_find. unfold find_ref in *.
  rewrite list_find_app_r by exact Hnone. simpl.
  rewrite decide_True by (by apply Is_true_true). reflexivity.
Qed.

(** The two entries an accepted transfer between different warehouses
    updates, through the updates of the handler. *)
Lemma transfer_updates_entries now st body :
  let pid := parseInt (productId body) in
  let fid := parseInt (fromWarehouseId body) in
  let tid := parseInt (toWarehouseId body) in
  let q := parseInt (quantity body) in
  let st' := snd (createTransfer now st body) in
  status (fst (createTransfer now st body)) = 201 ->
  strict_eq fid tid = false ->
  (exists src,
     Notions.entry_at pid fid (stock st) = Some src /\
     num_lt (StockEntry.quantity src) q = false /\
     Notions.entry_at pid fid (stock st') = Some (StockEntry.sub_quantity q src)) /\
  match Notions.entry_at pid tid (stock st) with
  | Some dest =>
      Notions.entry_at pid tid (stock st') = Some (StockEntry.add_quantity q dest) /\
      length (stock st') = length (stock st)
  | None =>
      exists id, Notions.entry_at pid tid (stock st') = Some (StockEntry.mk id pid tid q) /\
                 length (stock st') = S (length (stock st))
  end.
Proof.
  cbv zeta. intros Hok Hdiff.
  destruct (distinct_warehouses_decrement_source _ _ _ Hok Hdiff)
    as (src0 & Hbefore & Hafter & _).
  destruct (status_created _ Hok) as [t Hres].
  destruct (created_inv _ _ _ _ Hres)
    as (_ & _ & product & fromW & toW & i & src & Hp & _ & Hto & Hsrc & Hlt & _ & Hst).
  unfold Notions.entry_at. unfold source_entry in Hbefore, Hafter.
  split.
  { exists src0. split; [exact Hbefore|]. split; [|exact Hafter].
    rewrite find_ref_find, Hsrc in Hbefore. simpl in Hbefore. congruence. }
  rewrite Hst. simpl. unfold stock_after. rewrite (find_ref_find _ (stock st)).
  set (q := parseInt (quantity body)) in *.
  set (dest := stock_at (parseInt (productId body)) (parseInt (toWarehouseId body))) in *.
  assert (forall s, dest (StockEntry.sub_quantity q s) = dest s) as Hsubk by reflexivity.
  assert (forall s, dest (StockEntry.add_quantity q s) = dest s) as Haddk by reflexivity.
  destruct (find_ref dest (stock st)) as [[j d]|] eqn:Hdest; simpl.
  - pose proof (find_ref_alter dest (StockEntry.sub_quantity q) _ i _ _ Hsubk Hdest) as Hdest1.
    destruct (decide (i = j)) as [->|Hne].
    { exfalso. apply find_ref_Some in Hdest as (Hj & Hd & _).
      apply find_ref_Some in Hsrc as (Hi & Hs & _).
      assert (d = src) as -> by congruence.
      apply stock_at_key in Hd as (p & w & _ & Hw & Hk).
      apply stock_at_key in Hs as (p' & w' & _ & Hw' & Hk').
      rewrite Hw, Hw' in Hdiff. simpl in Hdiff.
      assert (w' = w) as -> by congruence.
      rewrite Z.eqb_refl in Hdiff. discriminate. }
    rewrite Hdest1.
    rewrite find_ref_find,
      (find_ref_alter dest (StockEntry.add_quantity q) _ j _ _ Haddk Hdest1).
    rewrite decide_True by reflexivity. split; [reflexivity|].
    by rewrite !length_alter.
  - pose proof (find_ref_alter_index dest (StockEntry.sub_quantity q) (stock st) i Hsubk)
      as Hidx.
    rewrite Hdest in Hidx.
    destruct (find_ref dest (alter _ i (stock st))) as [[j d]|] eqn:Hdest1; [discriminate|].
    eexists. split.
    + apply find_snoc_new; [exact Hdest1|].
      destruct (found_is_int _ _ _ _ Hp) as [z Hz].
      destruct (found_is_int _ _ _ _ Hto) as [w Hw].
      unfold dest, stock_at. simpl. rewrite Hz, Hw. simpl. by rewrite !Z.eqb_refl.
    + rewrite length_app, length_alter. simpl. lia.
Qed.

(** X6. When the two warehouse ids of an accepted transfer parse to
    different numbers, the source entry keeps its id, product and
    warehouse and holds what it held minus the parsed quantity, which was
    not more than it held; the destination entry keeps its id, product
    and warehouse and holds what it held plus the parsed quantity; when
    the destination had no entry, a new one is filed holding exactly the
    parsed quantity.  With integers [b], [c] on stock and [n] moved, the
    source goes to [b - n] and the destination to [c + n]. *)
Theorem transfer_moves_quantity now st body :
  let pid := parseInt (productId body) in
  let fid := parseInt (fromWarehouseId body) in
  let tid := parseInt (toWarehouseId body) in
  let q := parseInt (quantity body) in
  let st' := snd (createTransfer now st body) in
  status (fst (createTransfer now st body)) = 201 ->
  strict_eq fid tid = false ->
  (exists src,
     Notions.entry_at pid fid (stock st) = Some src /\
     num_lt (StockEntry.quantity src) q = false /\
     Notions.entry_at pid fid (stock st')
     = Some (StockEntry.mk (StockEntry.id src) (StockEntry.productId src)
                           (StockEntry.warehouseId src)
                           (num_sub (StockEntry.quantity src) q)) /\
     forall b n, StockEntry.quantity src = Int b -> q = Int n ->
       n <= b /\
       StockEntry.quantity <$> Notions.entry_at pid fid (stock st') = Some (Int (b - n))) /\
  match Notions.entry_at pid tid (stock st) with
  | Some dest =>
      Notions.entry_at pid tid (stock st')
      = Some (StockEntry.mk (StockEntry.id dest) (StockEntry.productId dest)
                            (StockEntry.warehouseId dest)
                            (num_add (StockEntry.quantity dest) q)) /\
      (forall c n, StockEntry.quantity dest = Int c -> q = Int n ->
         StockEntry.quantity <$> Notions.entry_at pid tid (stock st') = Some (Int (c + n))) /\
      length (stock st') = length (stock st)
  | None =>
      exists id, Notions.entry_at pid tid (stock st') = Some (StockEntry.mk id pid tid q) /\
                 length (stock st') = S (length (stock st))
  end.
Proof.
  cbv zeta. intros Hok Hdiff.
  destruct (transfer_updates_entries now st body Hok Hdiff)
    as [(src & Hsrc & Hlt & Hafter) Hdest].
  split.
  - exists src. split; [exact Hsrc|]. split; [exact Hlt|]. split; [exact Hafter|].
    intros b n Hb Hn. rewrite Hb, Hn in Hlt.
    split; [by apply num_lt_false_ge|].
    rewrite Hafter. simpl. by rewrite Hb, Hn.
  - destruct (Notions.entry_at _ (parseInt (toWarehouseId body)) (stock st)) as [dest|];
      [|exact Hdest].
    destruct Hdest as [Hd Hlen]. split; [exact Hd|]. split; [|exact Hlen].
    intros c n Hc Hn. rewrite Hd. simpl. by rewrite Hc, Hn.
Qed.

Lemma transfer_moves_quantity_witness :
  status (fst (createTransfer Sample.now Sample.store Sample.body_form)) = 201 /\
  strict_eq (parseInt (fromWarehouseId Sample.body_form))
            (parseInt (toWarehouseId Sample.body_form)) = false /\
  Notions.entry_at (Int 1) (Int 1) (stock Scenario.after_transfer)
  = Some (StockEntry.mk (Int 1) (Int 1) (Int 1) (Int 30)).
Proof.
  split; [reflexivity|]. split; [reflexivity|].
  destruct (transfer_moves_quantity Sample.now Sample.store Sample.body_form
                                    eq_refl eq_refl) as [(src & Hsrc & _ & Hafter & _) _].
  injection Hsrc as <-. exact Hafter.
Defined.

(** *** Identifiers *)

Lemma foldl_max_int (l : list num) a :
  Forall (fun n => exists z, n = Int z) l ->
  exists m, foldl num_max (Int a) l = Int m /\ a <= m /\ forall z, Int z ∈ l -> z <= m.
Proof.
  intros Hl. revert a. induction Hl as [|n l [z ->] _ IH]; intros a; simpl.
  - exists a. split; [reflexivity|]. split; [lia|]. intros z Hz. by apply elem_of_nil in Hz.
  - destruct (IH (Z.max a z)) as (m & -> & Hm & Hall). exists m.
    split; [reflexivity|]. split; [lia|].
    intros z' [[= ->]|Hz']%elem_of_cons; [lia|auto].
Qed.

Lemma next_id_fresh (l : list num) :
  Forall (fun n => exists z, n = Int z) l ->
  exists m, next_id l = Int m /\ forall z, Int z ∈ l -> z < m.
Proof.
  intros Hl. destruct l as [|x l]; simpl.
  - exists 1. split; [reflexivity|]. intros z Hz. by apply elem_of_nil in Hz.
  - apply Forall_cons in Hl as [[a ->] Hl].
    destruct (foldl_max_int l a Hl) as (m & -> & Hm & Hall).
    exists (m + 1). split; [reflexivity|].
    intros z [[= ->]|Hz]%elem_of_cons; [lia|]. specialize (Hall z Hz). lia.
Qed.

Lemma proper_ids_snoc (l : list num) :
  Notions.proper_ids l -> Notions.proper_ids (l ++ [next_id l]).
Proof.
  intros [Hint Hnd]. destruct (next_id_fresh l Hint) as (m & Hm & Hfresh).
  rewrite Hm. split.
  - apply Forall_app. split; [exact Hint|]. repeat constructor. eauto.
  - apply NoDup_app. split; [exact Hnd|]. split; [|apply NoDup_singleton].
    intros n Hn ->%list_elem_of_singleton. specialize (Hfresh m Hn). lia.
Qed.

Lemma ids_alter (h : StockEntry.t -> StockEntry.t) i (l : list StockEntry.t) :
  (forall s, StockEntry.id (h s) = StockEntry.id s) ->
  StockEntry.id <$> alter h i l = StockEntry.id <$> l.
Proof.
  intros Hh. revert i. induction l as [|s l IH]; intros [|i]; csimpl; auto.
  - by rewrite Hh.
  - f_equal. apply IH.
Qed.

(** X7. If the ids of the transfer history are integers, no two the
    same, they still are after any request: the id given to a new
    transfer is an integer above every id on file. *)
Theorem transfer_ids_stay_proper now st body :
  Notions.proper_ids (Transfer.id <$> transfers st) ->
  Notions.proper_ids (Transfer.id <$> transfers (snd (createTransfer now st body))) /\
  forall t, fst (createTransfer now st body) = Created t ->
    exists m, Transfer.id (Transfer.transfer t) = Int m /\
              forall t0 z, t0 ∈ transfers st -> Transfer.id t0 = Int z -> z < m.
Proof.
  intros Hids. destruct (fst (createTransfer now st body)) as [e|t] eqn:Hres.
  - rewrite (rejected_unchanged _ _ _ _ Hres). split; [exact Hids|discriminate].
  - destruct (created_inv _ _ _ _ Hres)
      as (_ & _ & product & fromW & toW & i & src & _ & _ & _ & _ & _ & Ht & ->).
    simpl. rewrite fmap_app, Ht. simpl. split.
    + by apply proper_ids_snoc.
    + intros t' [= <-]. rewrite Ht. simpl.
      destruct (next_id_fresh _ (proj1 Hids)) as (m & Hm & Hfresh).
      exists m. split; [exact Hm|]. intros t0 z Hin Hz. apply Hfresh.
      rewrite <- Hz. apply list_elem_of_fmap. eauto.
Qed.

Lemma transfer_ids_stay_proper_witness :
  Notions.proper_ids (Transfer.id <$> transfers Scenario.after_transfer) /\
  Notions.proper_ids
    (Transfer.id <$> transfers (snd (createTransfer Scenario.later Scenario.after_transfer
                                                    Sample.body_form))).
Proof.
  assert (Notions.proper_ids (Transfer.id <$> transfers Scenario.after_transfer)) as H.
  { split; [repeat constructor; by exists 1|apply NoDup_singleton]. }
  split; [exact H|].
  exact (proj1 (transfer_ids_stay_proper Scenario.later Scenario.after_transfer
                                         Sample.body_form H)).
Defined.

(** X8. If the ids of the stock file are integers, no two the same, they
    still are after any request: updates keep the ids, and a new entry
    gets an integer above every id on file. *)
Theorem stock_ids_stay_proper now st body :
  Notions.proper_ids (StockEntry.id <$> stock st) ->
  Notions.proper_ids (StockEntry.id <$> stock (snd (createTransfer now st body))).
Proof.
  intros Hids. destruct (fst (createTransfer now st body)) as [e|t] eqn:Hres.
  - by rewrite (rejected_unchanged _ _ _ _ Hres).
  - destruct (created_inv _ _ _ _ Hres)
      as (_ & _ & product & fromW & toW & i & src & _ & _ & _ & _ & _ & _ & ->).
    simpl. unfold stock_after. destruct (find_ref _ _) as [[j d]|].
    + by rewrite !ids_alter.
    + rewrite fmap_app. simpl.
      change (map StockEntry.id ?l) with (StockEntry.id <$> l).
      rewrite ids_alter by done. by apply proper_ids_snoc.
Qed.

Lemma stock_ids_stay_proper_witness :
  Notions.proper_ids (StockEntry.id <$> stock Sample.store) /\
  Notions.proper_ids (StockEntry.id <$> stock Scenario.after_transfer).
Proof.
  assert (Notions.proper_ids (StockEntry.id <$> stock Sample.store)) as H.
  { split; [repeat constructor; eauto|].
    apply NoDup_cons. split; [|apply NoDup_singleton].
    intros ?%list_elem_of_singleton. discriminate. }
  split; [exact H|].
  exact (stock_ids_stay_proper Sample.now Sample.store Sample.body_form H).
Defined.

(** *** Stock never goes below zero *)

(** X26. If every quantity on file is a non-negative integer and the
    quantity of the request parses to a non-negative number, every
    quantity on file is a non-negative integer after the request: the
    source is only debited what it holds. *)
Theorem stock_stays_non_negative now st body q :
  Notions.no_negative_stock (stock st) ->
  parseInt (quantity body) = Int q ->
  0 <= q ->
  Notions.no_negative_stock (stock (snd (createTransfer now st body))).
Proof.
  intros Hpos Hq Hq0. unfold Notions.no_negative_stock in *.
  destruct (fst (createTransfer now st body)) as [e|t] eqn:Hres.
  { by rewrite (rejected_unchanged _ _ _ _ Hres). }
  destruct (created_inv _ _ _ _ Hres)
    as (_ & _ & product & fromW & toW & i & src & _ & _ & _ & Hsrc & Hlt & _ & ->).
  simpl. unfold stock_after. rewrite Hq in *.
  apply find_ref_Some in Hsrc as (Hi & _ & _).
  assert (Forall (fun s => exists z, StockEntry.quantity s = Int z /\ 0 <= z)
                 (alter (StockEntry.sub_quantity (Int q)) i (stock st))) as H1.
  { apply Forall_alter; [exact Hpos|]. intros s Hs (z & Hz & Hz0).
    assert (s = src) as -> by congruence.
    rewrite Hz in Hlt. apply num_lt_false_ge in Hlt.
    exists (z - q). simpl. rewrite Hz. split; [reflexivity|lia]. }
  destruct (find_ref _ _) as [[j d]|].
  - apply Forall_alter; [exact H1|]. intros s _ (z & Hz & Hz0).
    exists (z + q). simpl. rewrite Hz. split; [reflexivity|lia].
  - apply Forall_app. split; [exact H1|]. repeat constructor. simpl. eauto.
Qed.

Lemma stock_stays_non_negative_witness :
  Notions.no_negative_stock (stock Sample.store) /\
  Notions.no_negative_stock (stock Scenario.after_transfer).
Proof.
  assert (Notions.no_negative_stock (stock Sample.store)) as H.
  { repeat constructor; eexists; (split; [reflexivity|lia]). }
  split; [exact H|].
  exact (stock_stays_non_negative Sample.now Sample.store Sample.body_form 10
           H eq_refl ltac:(lia)).
Defined.

End TransferMore.

(** ** More on the alert engine *)

Module AlertMore.
Import Alerts AlertFacts.

(** *** Sorting and mapping *)

Lemma sort_insert_map {A B} (f : A -> B) cmp cmp' x l :
  (forall a b, cmp (f a) (f b) = cmp' a b) ->
  sort_insert cmp (f x) (map f l) = map f (sort_insert cmp' x l).
Proof.
  intros Hc. induction l as [|y l IH]; simpl; [reflexivity|].
  rewrite Hc. destruct (cmp' x y <=? 0); simpl; [reflexivity|]. by rewrite IH.
Qed.

Lemma array_sort_map {A B} (f : A -> B) cmp cmp' l :
  (forall a b, cmp (f a) (f b) = cmp' a b) ->
  array_sort cmp (map f l) = map f (array_sort cmp' l).
Proof.
  intros Hc. induction l as [|x l IH]; [reflexivity|].
  unfold array_sort in *. simpl. rewrite IH. by apply sort_insert_map.
Qed.

(** Two stores with the same products whose alerts agree under a view
    that keeps the severity give the same list under that view. *)
Lemma computeAlerts_view (view : Alert -> Alert) st st' :
  (forall a, severity (view a) = severity a) ->
  products st' = products st ->
  (forall p, p ∈ products st -> view (productAlert st' p) = view (productAlert st p)) ->
  view <$> computeAlerts st' = view <$> computeAlerts st.
Proof.
  intros Hsev Hprod Hview. unfold computeAlerts. rewrite Hprod.
  change (?f <$> ?l) with (map f l).
  rewrite <- !(array_sort_map view
                 (fun a b => severityOrder (severity a) - severityOrder (severity b)))
    by (intros; by rewrite !Hsev).
  f_equal. rewrite !map_map. apply map_ext_in.
  intros p Hp%list_elem_of_In. by apply Hview.
Qed.

Lemma productAlert_total_only st st' p :
  totalQuantity (stock st') (Product.id p) = totalQuantity (stock st) (Product.id p) ->
  alerts st' = alerts st ->
  Notions.without_breakdown (productAlert st' p)
  = Notions.without_breakdown (productAlert st p).
Proof.
  intros Ht Ha. unfold productAlert. rewrite Ht, Ha.
  destruct (lt_threshold _ (_ * (1 # 2))); [reflexivity|].
  destruct (lt_threshold _ (Product.reorderPoint p)); [reflexivity|].
  destruct (gt_threshold _ _); reflexivity.
Qed.

(** X9. An accepted transfer whose quantity parses to a number changes no
    alert: apart from the warehouse breakdown, the alerts computed after
    it are those computed before it, in the same order. *)
Theorem numeric_transfer_keeps_alerts now st body q :
  Transfers.status (fst (Transfers.createTransfer now st body)) = 201 ->
  parseInt (Transfers.quantity body) = Int q ->
  Notions.without_breakdown <$> computeAlerts (snd (Transfers.createTransfer now st body))
  = Notions.without_breakdown <$> computeAlerts st.
Proof.
  intros Hok Hq.
  destruct (TransferMore.untouched_files now st body) as (Hp & _ & Ha).
  apply computeAlerts_view; [reflexivity|exact Hp|].
  intros p _. apply productAlert_total_only; [|exact Ha].
  by apply (TransferMore.numeric_transfer_keeps_total _ _ _ q).
Qed.

Lemma numeric_transfer_keeps_alerts_witness :
  Transfers.status (fst (Transfers.createTransfer Sample.now Sample.store Sample.body_form)) = 201 /\
  parseInt (Transfers.quantity Sample.body_form) = Int 10 /\
  Notions.without_breakdown <$> computeAlerts Scenario.after_transfer
  = Notions.without_breakdown <$> computeAlerts Sample.store.
Proof.
  split; [reflexivity|]. split; [reflexivity|].
  exact (numeric_transfer_keeps_alerts Sample.now Sample.store Sample.body_form 10
                                       eq_refl eq_refl).
Defined.

(** *** The warehouse breakdown *)



(** *** Acknowledgments *)

Lemma strict_ne_keep z (l : list AlertAcknowledgment.t) :
  List.filter (fun r => strict_ne (AlertAcknowledgment.productId r) (Int z))
              (List.filter (fun r => strict_ne (AlertAcknowledgment.productId r) (Int z)) l)
  = List.filter (fun r => strict_ne (AlertAcknowledgment.productId r) (Int z)) l.
Proof.
  induction l as [|r l IH]; [reflexivity|]. simpl.
  destruct (strict_ne _ _) eqn:E; simpl; [by rewrite E, IH|exact IH].
Qed.

Lemma filter_all {A} (f : A -> bool) (l : list A) :
  (forall x, x ∈ l -> f x = true) -> List.filter f l = l.
Proof.
  induction l as [|x l IH]; intros H; [reflexivity|]. simpl.
  rewrite (H x) by apply list_elem_of_here. f_equal. apply IH.
  intros y Hy. apply H. by apply list_elem_of_further.
Qed.

(** X11. Unacknowledging twice is unacknowledging once: the second call
    is answered 200 like the first and leaves the store the first call
    left; and unacknowledging a product that has no record changes
    nothing. *)
Theorem unacknowledge_idempotent st productId :
  let r1 := unacknowledge st productId in
  let r2 := unacknowledge (snd r1) productId in
  fst r2 = fst r1 /\ snd r2 = snd r1 /\
  (truthy productId = true ->
   (forall r, r ∈ alerts st ->
              strict_eq (AlertAcknowledgment.productId r) (parseInt productId) = false) ->
   alerts (snd r1) = alerts st /\ response_status (fst r1) = 200).
Proof.
  cbv zeta. unfold unacknowledge.
  destruct (truthy productId) eqn:Ht; simpl;
    [|split; [reflexivity|]; split; [reflexivity|discriminate]].
  split; [reflexivity|]. split.
  - f_equal. destruct (parseInt productId) as [z|].
    + apply strict_ne_keep.
    + rewrite !filter_all; [reflexivity|intros; by destruct (AlertAcknowledgment.productId _)..].
  - intros _ Hnone. split; [|reflexivity].
    apply filter_all. intros r Hr. unfold strict_ne. by rewrite (Hnone r Hr).
Qed.

(** The record [acknowledge] writes and the test it looks records up
    with. *)
Lemma upsert_pointer (f : AlertAcknowledgment.t -> bool) l d :
  f d = true ->
  exists i, find_ref f (match fst <$> find_ref f l with
                        | Some i => <[i := d]> l
                        | None => l ++ [d]
                        end) = Some (i, d) /\
            (fst <$> find_ref f l = Some i \/
             fst <$> find_ref f l = None /\ i = length l).
Proof.
  intros Hd. destruct (find_ref f l) as [[i x]|] eqn:Hfind; simpl.
  - exists i. split; [|by left].
    apply find_ref_Some in Hfind as (Hi & _ & Hleast). unfold find_ref.
    apply list_find_insert_Some. right; left.
    split; [reflexivity|]. split; [reflexivity|].
    split; [by eapply lookup_lt_Some|]. split; [by apply Is_true_true|].
    intros j y Hj Hlt. rewrite Is_true_true, (Hleast j y Hj Hlt). discriminate.
  - exists (length l). split; [|by right]. unfold find_ref in *.
    rewrite list_find_app_r by exact Hfind. simpl.
    rewrite decide_True by (by apply Is_true_true). reflexivity.
Qed.

Lemma NoDup_fmap_filter {A B} (g : A -> B) (f : A -> bool) (l : list A) :
  NoDup (g <$> l) -> NoDup (g <$> List.filter f l).
Proof.
  induction l as [|x l IH]; csimpl; [done|].
  intros [Hx Hl]%NoDup_cons. destruct (f x); csimpl; [|auto].
  apply NoDup_cons. split; [|auto]. intros Hin. apply Hx.
  apply list_elem_of_fmap in Hin as (y & -> & Hy).
  apply list_elem_of_fmap. exists y. split; [reflexivity|].
  apply list_elem_of_In in Hy. apply filter_In in Hy as [Hy _]. by apply list_elem_of_In.
Qed.

(** X12. If the acknowledgment file has at most one record per product,
    it still has after [unacknowledge], and after [acknowledge] of a
    productId that parses to a number: an existing record of the product
    is replaced where it stands, a record is added only when there is
    none. *)
Theorem acknowledgments_stay_one_per_product now st productId author :
  Notions.one_record_per_product (alerts st) ->
  Notions.one_record_per_product (alerts (snd (unacknowledge st productId))) /\
  (parseInt productId <> NaN ->
   Notions.one_record_per_product (alerts (snd (acknowledge now st productId author))) /\
   ((exists r, r ∈ alerts st /\
               strict_eq (AlertAcknowledgment.productId r) (parseInt productId) = true) ->
    length (alerts (snd (acknowledge now st productId author))) = length (alerts st))).
Proof.
  intros Hnd. unfold Notions.one_record_per_product in *. split.
  - unfold unacknowledge. destruct (truthy productId); simpl; [|exact Hnd].
    by apply NoDup_fmap_filter.
  - intros Hnum. unfold acknowledge. destruct (truthy productId); simpl; [|by split].
    destruct (parseInt productId) as [z|] eqn:Hz; [clear Hnum|by destruct Hnum].
    destruct (find_ref _ (alerts st)) as [[i x]|] eqn:Hfind; simpl.
    + apply find_ref_Some in Hfind as (Hi & (z' & Hx & [= <-])%strict_eq_true & _).
      split; [|intros _; apply length_insert].
      rewrite list_fmap_insert. simpl. rewrite list_insert_id; [exact Hnd|].
      by rewrite list_lookup_fmap, Hi, <- Hx.
    + split.
      * rewrite fmap_app. apply NoDup_app. split; [exact Hnd|].
        split; [|apply NoDup_singleton].
        intros n Hn ->%list_elem_of_singleton.
        apply list_elem_of_fmap in Hn as (r & Hr & Hin).
        pose proof (find_ref_None _ _ Hfind r Hin) as Hf. simpl in Hf.
        rewrite <- Hr in Hf. simpl in Hf. by rewrite Z.eqb_refl in Hf.
      * intros (r & Hin & Hr). rewrite (find_ref_None _ _ Hfind r Hin) in Hr. discriminate.
Qed.

Lemma acknowledgments_stay_one_per_product_witness :
  Notions.one_record_per_product (alerts Sample.store) /\
  Notions.one_record_per_product
    (alerts (snd (acknowledge Sample.now Sample.store (VNum 1) (VStr "Manager")))).
Proof.
  assert (Notions.one_record_per_product (alerts Sample.store)) as H by apply NoDup_nil_2.
  split; [exact H|].
  exact (proj1 (proj2 (acknowledgments_stay_one_per_product
                         Sample.now Sample.store (VNum 1) (VStr "Manager") H)
                      ltac:(discriminate))).
Defined.

(** X13. Acknowledging a product again overwrites: for a productId that
    parses to a number, two acknowledgments in a row leave the file that
    the second alone would leave. *)
Theorem acknowledge_again_overwrites now1 now2 st productId author1 author2 :
  parseInt productId <> NaN ->
  snd (acknowledge now2 (snd (acknowledge now1 st productId author1)) productId author2)
  = snd (acknowledge now2 st productId author2).
Proof.
  intros Hnum. unfold acknowledge. destruct (truthy productId); simpl; [|reflexivity].
  destruct (parseInt productId) as [z|] eqn:Hz; [clear Hnum|by destruct Hnum].
  f_equal.
  set (f := fun a => strict_eq (AlertAcknowledgment.productId a) (Int z)).
  set (d1 := AlertAcknowledgment.mk (Int z) true (VStr now1) (or_else author1 (VStr "System"))).
  set (d2 := AlertAcknowledgment.mk (Int z) true (VStr now2) (or_else author2 (VStr "System"))).
  destruct (upsert_pointer f (alerts st) d1) as (i & Hptr & Hwhere);
    [simpl; apply Z.eqb_refl|].
  rewrite Hptr. simpl.
  destruct Hwhere as [Hi|[Hnone ->]].
  - rewrite Hi. apply list_insert_insert_eq.
  - rewrite Hnone. rewrite insert_app_r_alt by lia.
    by rewrite Nat.sub_diag.
Qed.

Lemma acknowledge_again_overwrites_witness :
  alerts (snd (acknowledge Scenario.later
                 (snd (acknowledge Sample.now Sample.store (VNum 1) (VStr "Manager")))
                 (VNum 1) VUndefined))
  = [AlertAcknowledgment.mk (Int 1) true (VStr Scenario.later) (VStr "System")].
Proof.
  rewrite (acknowledge_again_overwrites Sample.now Scenario.later Sample.store
             (VNum 1) (VStr "Manager") VUndefined ltac:(discriminate)).
  reflexivity.
Defined.

(** *** What an acknowledgment leaves alone *)

Lemma find_insert_other {A} (f : A -> bool) (l : list A) i x d :
  l !! i = Some x -> f x = false -> f d = false -> find f (<[i := d]> l) = find f l.
Proof.
  revert i. induction l as [|y l IH]; intros [|i] Hi Hx Hd; try discriminate.
  - injection Hi as ->. simpl. by rewrite Hx, Hd.
  - simpl. destruct (f y); [reflexivity|]. by apply IH.
Qed.

Lemma find_snoc_other {A} (f : A -> bool) (l : list A) d :
  f d = false -> find f (l ++ [d]) = find f l.
Proof.
  intros Hd. induction l as [|y l IH]; simpl; [by rewrite Hd|].
  destruct (f y); [reflexivity|exact IH].
Qed.

Lemma find_filter_other {A} (f keep : A -> bool) (l : list A) :
  (forall x, f x = true -> keep x = true) -> find f (List.filter keep l) = find f l.
Proof.
  intros Hk. induction l as [|y l IH]; [reflexivity|]. simpl.
  destruct (f y) eqn:Hf.
  - rewrite (Hk y Hf). simpl. by rewrite Hf.
  - destruct (keep y); simpl; [by rewrite Hf|exact IH].
Qed.

Lemma strict_eq_other a b c :
  strict_eq a b = true -> strict_eq c b = false -> strict_eq a c = false.
Proof.
  intros (z & -> & ->)%strict_eq_true. destruct c; simpl; [|reflexivity].
  by rewrite Z.eqb_sym.
Qed.

Lemma productAlert_same_record st st' p :
  stock st' = stock st -> warehouses st' = warehouses st ->
  find (fun r => strict_eq (AlertAcknowledgment.productId r) (Product.id p)) (alerts st')
  = find (fun r => strict_eq (AlertAcknowledgment.productId r) (Product.id p)) (alerts st) ->
  productAlert st' p = productAlert st p.
Proof. intros Hs Hw Hf. unfold productAlert. by rewrite Hs, Hw, Hf. Qed.

Lemma productAlert_same_stock st st' p :
  stock st' = stock st -> warehouses st' = warehouses st ->
  Notions.without_acknowledgment (productAlert st' p)
  = Notions.without_acknowledgment (productAlert st p).
Proof.
  intros Hs Hw. unfold productAlert. rewrite Hs, Hw.
  destruct (lt_threshold _ (_ * (1 # 2))); [reflexivity|].
  destruct (lt_threshold _ (Product.reorderPoint p)); [reflexivity|].
  destruct (gt_threshold _ _); reflexivity.
Qed.

(** X14. [acknowledge] and [unacknowledge] touch the acknowledgment of
    one product only: apart from the three acknowledgment fields the
    alerts computed afterwards are those computed before, in the same
    order, and the alert of every product of another id is the same in
    every field. *)
Theorem acknowledgment_touches_one_product now st productId author :
  let st1 := snd (acknowledge now st productId author) in
  let st2 := snd (unacknowledge st productId) in
  Notions.without_acknowledgment <$> computeAlerts st1
  = Notions.without_acknowledgment <$> computeAlerts st /\
  Notions.without_acknowledgment <$> computeAlerts st2
  = Notions.without_acknowledgment <$> computeAlerts st /\
  forall p, strict_eq (Product.id p) (parseInt productId) = false ->
            productAlert st1 p = productAlert st p /\
            productAlert st2 p = productAlert st p.
Proof.
  cbv zeta. unfold acknowledge, unacknowledge.
  destruct (truthy productId); simpl; [|by repeat split].
  split; [|split].
  - apply computeAlerts_view; [reflexivity|reflexivity|].
    intros p _. by apply productAlert_same_stock.
  - apply computeAlerts_view; [reflexivity|reflexivity|].
    intros p _. by apply productAlert_same_stock.
  - intros p Hp. split; (apply productAlert_same_record; [reflexivity|reflexivity|]); simpl.
    + destruct (find_ref _ (alerts st)) as [[i x]|] eqn:Hfind; simpl.
      * apply find_ref_Some in Hfind as (Hi & Hx & _).
        apply (find_insert_other _ _ _ x); [exact Hi| |].
        -- by apply (strict_eq_other _ (parseInt productId)).
        -- simpl. destruct (parseInt productId), (Product.id p); simpl in *;
             try reflexivity. by rewrite Z.eqb_sym.
      * apply find_snoc_other. simpl.
        destruct (parseInt productId), (Product.id p); simpl in *;
          try reflexivity. by rewrite Z.eqb_sym.
    + apply find_filter_other. intros r Hr. unfold strict_ne.
      apply negb_true_iff. rewrite strict_eq_sym in Hp.
      apply strict_eq_true in Hr as (z & -> & Hz). rewrite Hz in Hp.
      clear -Hp. destruct (parseInt productId); simpl in *; [|reflexivity].
      by rewrite Z.eqb_sym.
Qed.

End AlertMore.

(** ** The pages *)

Module PageFacts.
Import Alerts AlertFacts.

Lemma StronglySorted_filter {A} (R : A -> A -> Prop) (f : A -> bool) (l : list A) :
  StronglySorted R l -> StronglySorted R (List.filter f l).
Proof.
  induction 1 as [|x l Hl IH Hx]; simpl; [constructor|].
  destruct (f x); [|exact IH]. constructor; [exact IH|].
  apply Forall_forall. intros y Hy%list_elem_of_In.
  apply filter_In in Hy as [Hy _]. rewrite Forall_forall in Hx.
  apply Hx. by apply list_elem_of_In.
Qed.

Lemma filter_filter_keep {A} (g keep : A -> bool) (l : list A) :
  (forall x, x ∈ l -> g x = true -> keep x = true) ->
  List.filter g (List.filter keep l) = List.filter g l.
Proof.
  induction l as [|x l IH]; intros H; [reflexivity|]. simpl.
  assert (List.filter g (List.filter keep l) = List.filter g l) as IH'
    by (apply IH; intros y Hy; apply H; by apply list_elem_of_further).
  destruct (g x) eqn:Hg.
  - rewrite (H x (list_elem_of_here _ _) Hg). simpl. by rewrite Hg, IH'.
  - destruct (keep x); simpl; [by rewrite Hg|exact IH'].
Qed.

Lemma length_filter_perm {A} (f : A -> bool) (l l' : list A) :
  Permutation l l' -> length (List.filter f l) = length (List.filter f l').
Proof.
  induction 1 as [|x l l' _ IH|x y l|l l' l'' _ IH1 _ IH2]; simpl.
  - reflexivity.
  - destruct (f x); simpl; by rewrite IH.
  - destruct (f x), (f y); reflexivity.
  - by rewrite IH1.
Qed.

Lemma length_filter_map {A B} (f : B -> bool) (g : A -> B) (l : list A) :
  length (List.filter f (map g l)) = length (List.filter (fun x => f (g x)) l).
Proof.
  induction l as [|x l IH]; simpl; [reflexivity|].
  destruct (f (g x)); simpl; by rewrite IH.
Qed.

Lemma count_open st (f : Alert -> bool) s :
  (forall p, f (productAlert st p) = Notions.open_with_status s (productAlert st p)) ->
  length (List.filter f (computeAlerts st))
  = length (List.filter (fun p => Notions.open_with_status s (productAlert st p))
                        (products st)).
Proof.
  intros Hf. rewrite (length_filter_perm f _ _ (computeAlerts_perm st)).
  rewrite length_filter_map. f_equal. apply filter_ext. exact Hf.
Qed.

(** X15. Whatever the two filter settings, the alerts page lists the
    alerts of the API answer that pass them - the severity asked for, or
    any under 'all'; unacknowledged only, unless acknowledged ones are
    shown - in the order of the answer, critical before high before
    medium before low.  The three cards count the products whose alert is
    open, that is not acknowledged, with status critical, low and
    overstocked: the 'high' card counts the low stock, the 'medium' card
    the overstock. *)
Theorem alerts_page_keeps_order st filter showAcknowledged :
  let alerts := computeAlerts st in
  let shown := AlertsPage.filteredAlerts filter showAcknowledged alerts in
  StronglySorted (fun a b => Notions.claimed_rank (severity a)
                             <= Notions.claimed_rank (severity b)) shown /\
  sublist shown alerts /\
  (forall a, a ∈ shown <->
     a ∈ alerts /\
     (filter = "all"%string \/ severity_name (severity a) = filter) /\
     (showAcknowledged = false -> acknowledged a = false)) /\
  AlertsPage.criticalCount alerts
  = length (List.filter (fun p => Notions.open_with_status Critical (productAlert st p))
                        (products st)) /\
  AlertsPage.highCount alerts
  = length (List.filter (fun p => Notions.open_with_status Low (productAlert st p))
                        (products st)) /\
  AlertsPage.mediumCount alerts
  = length (List.filter (fun p => Notions.open_with_status Overstocked (productAlert st p))
                        (products st)).
Proof.
  cbv zeta. split; [|split; [|split]].
  - apply StronglySorted_filter.
    eapply StronglySorted_rank; [|apply (array_sort_sorted rank)].
    intros a b. unfold rank. by destruct (severity a), (severity b).
  - unfold AlertsPage.filteredAlerts.
    induction (computeAlerts st) as [|a l IH]; simpl; [constructor|].
    destruct (_ && _); [by apply sublist_skip|by apply sublist_cons].
  - intros a. unfold AlertsPage.filteredAlerts.
    rewrite !list_elem_of_In, filter_In. cbv zeta.
    rewrite andb_true_iff, orb_true_iff, !String.eqb_eq.
    destruct showAcknowledged.
    + split; [intros (? & ? & _); by repeat split|intros (? & ? & _); by repeat split].
    + rewrite negb_true_iff.
      split; [intros (? & ? & ?); by repeat split|intros (? & ? & H); repeat split; auto].
  - unfold AlertsPage.criticalCount, AlertsPage.highCount, AlertsPage.mediumCount.
    split; [|split]; apply count_open; intros p;
      unfold Notions.open_with_status;
      destruct (productAlert_cases st p)
        as [(_ & -> & -> & _)|[(_ & _ & -> & -> & _)
           |[(_ & _ & _ & -> & -> & _)|(_ & _ & _ & -> & -> & _)]]];
      reflexivity.
Qed.

Lemma acknowledged_after_acknowledge now st productId author p :
  truthy productId = true ->
  strict_eq (Product.id p) (parseInt productId) = true ->
  acknowledged (productAlert (snd (acknowledge now st productId author)) p) = true.
Proof.
  intros Ht Hid. unfold acknowledge. rewrite Ht. simpl.
  match goal with |- context [productAlert ?s p] =>
    destruct (productAlert_fields s p) as (_ & _ & -> & _) end.
  apply strict_eq_true in Hid as (z & -> & ->). simpl.
  rewrite find_after_upsert by (simpl; apply Z.eqb_refl). reflexivity.
Qed.

(** X16. Once [acknowledge(productId)] has been answered 200, the alerts
    page with acknowledged alerts hidden lists no alert of that product,
    under any filter; the three counts on the cards are then those of
    the alerts of the other products. *)
Theorem acknowledged_alert_is_hidden now st productId author filter :
  response_status (fst (acknowledge now st productId author)) = 200 ->
  let alerts := computeAlerts (snd (acknowledge now st productId author)) in
  let others :=
    List.filter (fun a => strict_ne (Alerts.productId a) (parseInt productId)) alerts in
  (forall a, a ∈ AlertsPage.filteredAlerts filter false alerts ->
             strict_eq (Alerts.productId a) (parseInt productId) = false) /\
  AlertsPage.criticalCount alerts = AlertsPage.criticalCount others /\
  AlertsPage.highCount alerts = AlertsPage.highCount others /\
  AlertsPage.mediumCount alerts = AlertsPage.mediumCount others.
Proof.
  intros Hok. cbv zeta.
  assert (truthy productId = true) as Ht.
  { revert Hok. unfold acknowledge. by destruct (truthy productId). }
  assert (forall a, a ∈ computeAlerts (snd (acknowledge now st productId author)) ->
                    acknowledged a = false ->
                    strict_eq (Alerts.productId a) (parseInt productId) = false) as Hhid.
  { intros a (p & _ & ->)%computeAlerts_elem Hack.
    destruct (strict_eq _ _) eqn:Hid; [|reflexivity].
    destruct (productAlert_fields (snd (acknowledge now st productId author)) p)
      as (Hpid & _).
    rewrite Hpid in Hid.
    rewrite (acknowledged_after_acknowledge now st productId author p Ht Hid) in Hack.
    discriminate. }
  split.
  - intros a Ha%list_elem_of_In. unfold AlertsPage.filteredAlerts in Ha.
    apply filter_In in Ha as [Hin Hf%andb_true_iff]. destruct Hf as [_ Hack].
    apply Hhid; [by apply list_elem_of_In|]. by apply negb_true_iff.
  - assert (forall name,
              List.filter (fun a => String.eqb (severity_name (severity a)) name
                                    && negb (acknowledged a))
                          (List.filter (fun a => strict_ne (Alerts.productId a)
                                                           (parseInt productId))
                                       (computeAlerts (snd (acknowledge now st productId author))))
              = List.filter (fun a => String.eqb (severity_name (severity a)) name
                                      && negb (acknowledged a))
                            (computeAlerts (snd (acknowledge now st productId author))))
      as Hcount.
    { intros name. apply filter_filter_keep. intros a Ha [_ Hack%negb_true_iff]%andb_true_iff.
      unfold strict_ne. by rewrite (Hhid a Ha Hack). }
    unfold AlertsPage.criticalCount, AlertsPage.highCount, AlertsPage.mediumCount.
    by rewrite !Hcount.
Qed.

Lemma acknowledged_alert_is_hidden_witness :
  response_status (fst (acknowledge Sample.now Sample.store (VNum 1) (VStr "Manager"))) = 200 /\
  AlertsPage.criticalCount (computeAlerts Sample.store) = 1%nat /\
  AlertsPage.criticalCount
    (computeAlerts (snd (acknowledge Sample.now Sample.store (VNum 1) (VStr "Manager"))))
  = 0%nat.
Proof.
  split; [reflexivity|]. split; [reflexivity|].
  rewrite (proj1 (proj2 (acknowledged_alert_is_hidden
                           Sample.now Sample.store (VNum 1) (VStr "Manager") "all" eq_refl))).
  reflexivity.
Defined.

(** *** The dashboard *)

(** X17. The dashboard and the alert engine classify alike: for every
    product, the status column of the exported report is the label of
    the status the alert engine gives the product on the same stock, and
    the row's total is the alert's currentStock. *)
Theorem dashboard_agrees_with_alerts st p :
  let row := Dashboard.overview (stock st) p in
  let a := productAlert st p in
  Dashboard.export_status row = Dashboard.status_label (status a) /\
  Dashboard.totalQuantity row = currentStock a /\
  (Dashboard.isCritical row = true <-> status a = Critical) /\
  (Dashboard.isLowStock row && negb (Dashboard.isCritical row) = true <-> status a = Low).
Proof.
  cbv zeta. unfold Dashboard.export_status, Dashboard.overview, productAlert. simpl.
  change (foldl _ (Int 0) (List.filter _ (stock st)))
    with (totalQuantity (stock st) (Product.id p)).
  destruct (lt_threshold _ (_ * (1 # 2))); [destruct (lt_threshold _ _)|];
    [| |destruct (lt_threshold _ (Product.reorderPoint p)); [|destruct (gt_threshold _ _)]];
    simpl; repeat split; intros; try reflexivity; discriminate.
Qed.

Lemma one_class_each stock p :
  (0 <= Product.reorderPoint p)%Q ->
  let row := Dashboard.overview stock p in
  (Nat.b2n (Dashboard.isCritical row)
   + Nat.b2n (Dashboard.isLowStock row && negb (Dashboard.isCritical row))
   + Nat.b2n (negb (Dashboard.isLowStock row) && negb (Dashboard.isOverstocked row))
   + Nat.b2n (Dashboard.isOverstocked row) = 1)%nat.
Proof.
  intros Hrp. cbv zeta. unfold Dashboard.overview. simpl.
  destruct (foldl _ (Int 0) _) as [t|]; [|reflexivity].
  destruct (lt_threshold (Int t) (_ * (1 # 2))) eqn:E1,
           (lt_threshold (Int t) (Product.reorderPoint p)) eqn:E2,
           (gt_threshold (Int t) _) eqn:E3; try reflexivity; exfalso;
    try apply lt_threshold_spec in E1; try apply lt_threshold_spec in E2;
    try apply gt_threshold_spec in E3;
    try (apply not_true_iff_false in E1; rewrite lt_threshold_spec in E1);
    try (apply not_true_iff_false in E2; rewrite lt_threshold_spec in E2);
    try (apply not_true_iff_false in E3; rewrite gt_threshold_spec in E3);
    lra.
Qed.

Lemma length_filter_cons {A} (f : A -> bool) x (l : list A) :
  length (List.filter f (x :: l)) = (Nat.b2n (f x) + length (List.filter f l))%nat.
Proof. simpl. by destruct (f x). Qed.

(** X18. When no product has a negative reorder point, the four counts
    of the dashboard's stock status chart - critical, low, adequate,
    overstocked - put every product in exactly one class: they add up to
    the number of products. *)
Theorem dashboard_counts_add_up products stock :
  Forall (fun p => (0 <= Product.reorderPoint p)%Q) products ->
  let io := Dashboard.inventoryOverview products stock in
  (Dashboard.criticalStock io + Dashboard.lowStock io
   + Dashboard.adequateStock io + Dashboard.overstocked io = length products)%nat.
Proof.
  intros Hrp. cbv zeta.
  unfold Dashboard.criticalStock, Dashboard.lowStock, Dashboard.adequateStock,
    Dashboard.overstocked, Dashboard.inventoryOverview.
  induction Hrp as [|p l Hp _ IH]; [reflexivity|].
  cbn [map]. rewrite !length_filter_cons.
  pose proof (one_class_each stock p Hp) as H1. cbv zeta in H1.
  cbn [length]. lia.
Qed.

Lemma dashboard_counts_add_up_witness :
  Forall (fun p => (0 <= Product.reorderPoint p)%Q) (products Sample.store) /\
  let io := Dashboard.inventoryOverview (products Sample.store) (stock Sample.store) in
  (Dashboard.criticalStock io + Dashboard.lowStock io
   + Dashboard.adequateStock io + Dashboard.overstocked io = 2)%nat.
Proof.
  assert (Forall (fun p => (0 <= Product.reorderPoint p)%Q) (products Sample.store)) as H
    by (repeat constructor; discriminate).
  split; [exact H|].
  exact (dashboard_counts_add_up (products Sample.store) (stock Sample.store) H).
Defined.

Lemma totalItems_cons s l :
  Dashboard.totalItems (s :: l) = num_add (StockEntry.quantity s) (Dashboard.totalItems l).
Proof.
  unfold Dashboard.totalItems. simpl. rewrite TransferFacts.foldl_num_add.
  by destruct (StockEntry.quantity s).
Qed.

Lemma totalItems_snoc l s :
  Dashboard.totalItems (l ++ [s]) = num_add (Dashboard.totalItems l) (StockEntry.quantity s).
Proof.
  unfold Dashboard.totalItems. by rewrite foldl_snoc.
Qed.

Lemma totalItems_sub l i s q :
  l !! i = Some s ->
  Dashboard.totalItems (alter (StockEntry.sub_quantity q) i l)
  = num_sub (Dashboard.totalItems l) q.
Proof.
  revert i. induction l as [|x l IH]; intros [|i] Hi; try discriminate.
  - injection Hi as ->. change (alter _ 0%nat (s :: l)) with (StockEntry.sub_quantity q s :: l).
    rewrite !totalItems_cons. simpl.
    destruct (StockEntry.quantity s), q, (Dashboard.totalItems l); simpl; f_equal; lia.
  - change (alter ?h (S i) (x :: l)) with (x :: alter h i l).
    rewrite !totalItems_cons, (IH i Hi).
    destruct (StockEntry.quantity x), q, (Dashboard.totalItems l); simpl; f_equal; lia.
Qed.

Lemma totalItems_add l i s q :
  l !! i = Some s ->
  Dashboard.totalItems (alter (StockEntry.add_quantity q) i l)
  = num_add (Dashboard.totalItems l) q.
Proof.
  revert i. induction l as [|x l IH]; intros [|i] Hi; try discriminate.
  - injection Hi as ->. change (alter _ 0%nat (s :: l)) with (StockEntry.add_quantity q s :: l).
    rewrite !totalItems_cons. simpl.
    destruct (StockEntry.quantity s), q, (Dashboard.totalItems l); simpl; f_equal; lia.
  - change (alter ?h (S i) (x :: l)) with (x :: alter h i l).
    rewrite !totalItems_cons, (IH i Hi).
    destruct (StockEntry.quantity x), q, (Dashboard.totalItems l); simpl; f_equal; lia.
Qed.

(** X19. An accepted transfer whose quantity parses to a number leaves
    the dashboard's total of items in stock as it was. *)
Theorem numeric_transfer_keeps_total_items now st body q :
  Transfers.status (fst (Transfers.createTransfer now st body)) = 201 ->
  parseInt (Transfers.quantity body) = Int q ->
  Dashboard.totalItems (stock (snd (Transfers.createTransfer now st body)))
  = Dashboard.totalItems (stock st).
Proof.
  intros [t Hres]%TransferFacts.status_created Hq.
  destruct (TransferFacts.created_inv _ _ _ _ Hres)
    as (_ & _ & product & fromW & toW & i & src & _ & _ & _ & Hsrc & _ & _ & ->).
  simpl. unfold Transfers.stock_after. rewrite Hq.
  apply find_ref_Some in Hsrc as (Hi & _ & _).
  pose proof (totalItems_sub _ _ _ (Int q) Hi) as Hsub.
  destruct (find_ref _ (alter _ i (stock st))) as [[j d]|] eqn:Hdest.
  - apply find_ref_Some in Hdest as (Hj & _ & _).
    rewrite (totalItems_add _ _ _ (Int q) Hj), Hsub. apply num_add_sub_cancel.
  - rewrite totalItems_snoc, Hsub. apply num_add_sub_cancel.
Qed.

Lemma numeric_transfer_keeps_total_items_witness :
  Dashboard.totalItems (stock Sample.store) = Int 60 /\
  Dashboard.totalItems (stock Scenario.after_transfer) = Int 60.
Proof.
  split; [reflexivity|]. unfold Scenario.after_transfer.
  rewrite (numeric_transfer_keeps_total_items
             Sample.now Sample.store Sample.body_form 10 eq_refl eq_refl).
  reflexivity.
Defined.

End PageFacts.

(** ** Keyboard shortcuts *)

Module KeyboardFacts.
Import Keyboard.

Lemma shift_is_not_E k :
  String.eqb (toLowerCase k) "shift" = true -> String.eqb k "E" = false.
Proof.
  intros H. destruct (String.eqb_spec k "E") as [->|]; [|reflexivity].
  discriminate H.
Qed.

Ltac split_shortcuts :=
  repeat match goal with
         | |- context [if ?c then _ else _] => destruct c eqn:?
         end.

(** X20. No key event makes the listener call the PDF export: the case
    that would do so is never reached. Ctrl or Cmd with the key 'E' -
    which is what Ctrl+Shift+E sends - runs the CSV export instead. *)
Theorem pdf_export_never_called customHandlers event :
  ~ In ExportPDF (handleKeyPress customHandlers event) /\
  (ctrlKey event || metaKey event = true ->
   key event = "E"%string ->
   handleKeyPress customHandlers event
   = PreventDefault :: call (exportCSV customHandlers) ExportCSV).
Proof.
  split.
  - unfold handleKeyPress, call.
    destruct (String.eqb (toLowerCase (key event)) "shift") eqn:Hshift.
    + rewrite (shift_is_not_E _ Hshift), andb_false_r.
      split_shortcuts; simpl; intuition discriminate.
    + split_shortcuts; simpl; intuition discriminate.
  - intros Hmod Hk. unfold handleKeyPress. rewrite Hk. simpl toLowerCase.
    destruct (ctrlKey event), (metaKey event); try discriminate;
      simpl; rewrite ?andb_false_r; simpl; by rewrite app_nil_r.
Qed.

(** X21. One key event triggers at most one shortcut, and the listener
    calls preventDefault exactly when it recognises one: its actions are
    none at all, or preventDefault followed by at most one navigation or
    handler call. A key typed into an input, textarea or select without
    Ctrl or Cmd triggers nothing. *)
Theorem one_shortcut_per_key customHandlers event :
  (handleKeyPress customHandlers event = [] \/
   exists rest, handleKeyPress customHandlers event = PreventDefault :: rest /\
                (length rest <= 1)%nat /\ Forall (fun a => is_effect a = true) rest) /\
  (existsb (String.eqb (tagName event)) ["INPUT"; "TEXTAREA"; "SELECT"]%string = true ->
   ctrlKey event = false -> metaKey event = false ->
   handleKeyPress customHandlers event = []).
Proof.
  split.
  - unfold handleKeyPress, call.
    destruct (ctrlKey event), (metaKey event); simpl; rewrite ?andb_false_r; simpl;
      rewrite ?app_nil_r;
      split_shortcuts; simpl;
      first [by left
            |right; eexists; split; [reflexivity|];
             split; [simpl; lia|repeat constructor]].
  - intros Hin Hc Hm. unfold handleKeyPress. by rewrite Hin, Hc, Hm.
Qed.

(** X22. With Ctrl or Cmd held, each navigation letter leads to its
    page, in upper or lower case, whether Shift is held or not, and also
    while the focus is in a form field; nothing else happens on that
    event. *)
Theorem navigation_shortcuts customHandlers event letter path :
  In (letter, path) Notions.navigation ->
  ctrlKey event || metaKey event = true ->
  toLowerCase (key event) = letter ->
  handleKeyPress customHandlers event = [PreventDefault; Push path].
Proof.
  intros Hin Hmod Hkey. unfold handleKeyPress. rewrite Hkey.
  assert (existsb (String.eqb (tagName event)) ["INPUT"; "TEXTAREA"; "SELECT"]%string
          && negb (ctrlKey event) && negb (metaKey event) = false) as ->.
  { destruct (ctrlKey event), (metaKey event); try discriminate;
      by rewrite ?andb_false_r. }
  rewrite Hmod.
  assert (negb (ctrlKey event) && negb (metaKey event) = false) as ->
    by (by destruct (ctrlKey event), (metaKey event)).
  simpl in Hin.
  repeat (destruct Hin as [[= <- <-]|Hin]; [reflexivity|]). destruct Hin.
Qed.

Lemma navigation_shortcuts_witness :
  handleKeyPress (mkHandlers true true true false false)
                 (mkEvent "INPUT" false true true "T")
  = [PreventDefault; Push "/transfers"].
Proof.
  apply (navigation_shortcuts _ _ "t"%string).
  - simpl. auto 10.
  - reflexivity.
  - reflexivity.
Defined.

End KeyboardFacts.

(** ** The transfer history *)

Module TransferListFacts.
Import Transfers TransferList.

(** *** Sorting with any comparator *)

Lemma sort_insert_perm_any {A} (cmp : A -> A -> Z) x l :
  Permutation (Alerts.sort_insert cmp x l) (x :: l).
Proof.
  induction l as [|y l IH]; simpl; [reflexivity|].
  destruct (cmp x y <=? 0); [reflexivity|].
  rewrite IH. apply perm_swap.
Qed.

Lemma array_sort_perm_any {A} (cmp : A -> A -> Z) l :
  Permutation (Alerts.array_sort cmp l) l.
Proof.
  induction l as [|x l IH]; simpl; [reflexivity|].
  unfold Alerts.array_sort in *. simpl. by rewrite sort_insert_perm_any, IH.
Qed.

Lemma sort_insert_ext {A} (cmp cmp' : A -> A -> Z) x l :
  (forall y, y ∈ l -> cmp x y = cmp' x y) ->
  Alerts.sort_insert cmp x l = Alerts.sort_insert cmp' x l.
Proof.
  induction l as [|y l IH]; intros H; simpl; [reflexivity|].
  rewrite (H y) by apply list_elem_of_here.
  destruct (cmp' x y <=? 0); [reflexivity|]. f_equal. apply IH.
  intros z Hz. apply H. by apply list_elem_of_further.
Qed.

Lemma array_sort_ext {A} (cmp cmp' : A -> A -> Z) l :
  (forall x y, x ∈ l -> y ∈ l -> cmp x y = cmp' x y) ->
  Alerts.array_sort cmp l = Alerts.array_sort cmp' l.
Proof.
  induction l as [|x l IH]; intros H; [reflexivity|].
  unfold Alerts.array_sort in *. simpl. rewrite IH.
  - apply sort_insert_ext. intros y Hy. apply H; [apply list_elem_of_here|].
    apply list_elem_of_further.
    change (foldr (Alerts.sort_insert cmp') [] l) with (Alerts.array_sort cmp' l) in Hy.
    by rewrite array_sort_perm_any in Hy.
  - intros y z Hy Hz. apply H; by apply list_elem_of_further.
Qed.

Lemma enrich_transfer st (l : list Transfer.t) :
  Transfer.transfer <$> (enrich st <$> l) = l.
Proof. induction l as [|t l IH]; csimpl; [reflexivity|]. by rewrite IH. Qed.

Lemma find_the_only {A} (f : A -> bool) (l : list A) x :
  x ∈ l -> f x = true ->
  (forall y, y ∈ l -> f y = true -> y = x) ->
  find f l = Some x.
Proof.
  intros Hin Hf Honly. destruct (find f l) as [y|] eqn:E.
  - apply TransferMore.find_Some_elem in E as [Hy Hfy]. by rewrite (Honly y Hy Hfy).
  - apply list_elem_of_In in Hin. rewrite (find_none _ _ E x Hin) in Hf. discriminate.
Qed.

(** X23. The history lists every stored transfer exactly once.  A listed
    transfer whose product id is that of one product on file carries the
    name and the sku of that product, where they are not empty; one whose
    warehouse id is that of one warehouse on file carries the name of
    that warehouse.  A transfer whose product is no longer on file is
    listed as "Unknown Product" with sku "N/A", one whose warehouse is no
    longer on file as "Unknown Warehouse"; the listing never fails for
    that. *)
Theorem history_lists_every_transfer timeValue st :
  Permutation (Transfer.transfer <$> listTransfers timeValue st) (transfers st) /\
  forall e, e ∈ listTransfers timeValue st ->
    let t := Transfer.transfer e in
    t ∈ transfers st /\
    (forall p, p ∈ products st ->
       strict_eq (Product.id p) (Transfer.productId t) = true ->
       (forall p', p' ∈ products st ->
          strict_eq (Product.id p') (Transfer.productId t) = true -> p' = p) ->
       (Product.name p <> ""%string -> Transfer.productName e = Product.name p) /\
       (Product.sku p <> ""%string -> Transfer.productSku e = Product.sku p) /\
       (Product.name p = ""%string -> Transfer.productName e = "Unknown Product"%string) /\
       (Product.sku p = ""%string -> Transfer.productSku e = "N/A"%string)) /\
    (forall w, w ∈ warehouses st ->
       strict_eq (Warehouse.id w) (Transfer.fromWarehouseId t) = true ->
       (forall w', w' ∈ warehouses st ->
          strict_eq (Warehouse.id w') (Transfer.fromWarehouseId t) = true -> w' = w) ->
       Warehouse.name w <> ""%string ->
       Transfer.fromWarehouseName e = Warehouse.name w) /\
    (forall w, w ∈ warehouses st ->
       strict_eq (Warehouse.id w) (Transfer.toWarehouseId t) = true ->
       (forall w', w' ∈ warehouses st ->
          strict_eq (Warehouse.id w') (Transfer.toWarehouseId t) = true -> w' = w) ->
       Warehouse.name w <> ""%string ->
       Transfer.toWarehouseName e = Warehouse.name w) /\
    ((forall p, p ∈ products st ->
        strict_eq (Product.id p) (Transfer.productId t) = false) ->
     Transfer.productName e = "Unknown Product"%string /\
     Transfer.productSku e = "N/A"%string) /\
    ((forall w, w ∈ warehouses st ->
        strict_eq (Warehouse.id w) (Transfer.fromWarehouseId t) = false) ->
     Transfer.fromWarehouseName e = "Unknown Warehouse"%string) /\
    ((forall w, w ∈ warehouses st ->
        strict_eq (Warehouse.id w) (Transfer.toWarehouseId t) = false) ->
     Transfer.toWarehouseName e = "Unknown Warehouse"%string).
Proof.
  assert (Permutation (listTransfers timeValue st) (enrich st <$> transfers st)) as Hperm
    by apply array_sort_perm_any.
  split; [by rewrite Hperm, enrich_transfer|].
  intros e He. cbv zeta. rewrite Hperm in He.
  apply list_elem_of_fmap in He as (t & -> & Ht). simpl.
  assert (forall {A} (f : A -> bool) (l : list A),
            (forall x, x ∈ l -> f x = false) -> find f l = None) as Hnone.
  { intros A f l H. destruct (find f l) as [x|] eqn:E; [|reflexivity].
    apply TransferMore.find_Some_elem in E as [Hin Hf]. rewrite (H x Hin) in Hf.
    discriminate. }
  assert (forall s, s <> ""%string -> String.eqb s "" = false) as Hne
    by (intros s Hs; by apply String.eqb_neq).
  split; [exact Ht|].
  split; [|split; [|split; [|split; [|split]]]].
  - intros p Hp Hid Honly. rewrite (find_the_only _ _ p Hp Hid Honly). simpl.
    split; [|split; [|split]]; intros H.
    + by rewrite (Hne _ H).
    + by rewrite (Hne _ H).
    + by rewrite H.
    + by rewrite H.
  - intros w Hw Hid Honly H. rewrite (find_the_only _ _ w Hw Hid Honly). simpl.
    by rewrite (Hne _ H).
  - intros w Hw Hid Honly H. rewrite (find_the_only _ _ w Hw Hid Honly). simpl.
    by rewrite (Hne _ H).
  - intros Hmiss. by rewrite (Hnone _ _ _ Hmiss).
  - intros Hmiss. by rewrite (Hnone _ _ _ Hmiss).
  - intros Hmiss. by rewrite (Hnone _ _ _ Hmiss).
Qed.

Lemma StronglySorted_weaken {A} (R R' : A -> A -> Prop) (l : list A) :
  (forall a b, R a b -> R' a b) -> StronglySorted R l -> StronglySorted R' l.
Proof.
  intros HR. induction 1 as [|x l Hl IH Hx]; constructor; [exact IH|].
  eapply Forall_impl; [exact Hx|]. intros; by apply HR.
Qed.

(** When every stored date is a date, the comparator of the listing is
    the difference of two keys. *)
Lemma listTransfers_by_key timeValue st :
  (forall t, t ∈ transfers st -> exists z, timeValue (Transfer.date t) = Int z) ->
  listTransfers timeValue st
  = Alerts.array_sort (fun a b => - time_of timeValue a - - time_of timeValue b)
                      (map (enrich st) (transfers st)).
Proof.
  intros Hvalid. unfold listTransfers. apply array_sort_ext.
  intros x y (tx & -> & Hx)%list_elem_of_fmap (ty & -> & Hy)%list_elem_of_fmap.
  unfold time_of. simpl.
  destruct (Hvalid tx Hx) as [zx ->], (Hvalid ty Hy) as [zy ->]. simpl. lia.
Qed.

(** X24. When every stored date is a date, the history comes newest
    first, and transfers of the same instant stay in the order in which
    they are stored. *)
Theorem history_newest_first timeValue st :
  (forall t, t ∈ transfers st -> exists z, timeValue (Transfer.date t) = Int z) ->
  StronglySorted (fun a b => time_of timeValue b <= time_of timeValue a)
                 (listTransfers timeValue st) /\
  forall z,
    List.filter (fun e => time_of timeValue e =? z) (listTransfers timeValue st)
    = List.filter (fun e => time_of timeValue e =? z) (map (enrich st) (transfers st)).
Proof.
  intros Hvalid. rewrite (listTransfers_by_key _ _ Hvalid). split.
  - eapply StronglySorted_weaken;
      [|apply (AlertFacts.array_sort_sorted (fun e => - time_of timeValue e))].
    simpl. intros a b. lia.
  - intros z.
    pose proof (AlertFacts.array_sort_filter (fun e => - time_of timeValue e) (- z)
                  (map (enrich st) (transfers st))) as Hst.
    assert (forall l : list Transfer.enriched,
              List.filter (fun e => - time_of timeValue e =? - z) l
              = List.filter (fun e => time_of timeValue e =? z) l) as Hflip.
    { intros l. apply filter_ext. intros e.
      destruct (Z.eqb_spec (time_of timeValue e) z) as [->|Hne];
        [apply Z.eqb_refl|]. apply Z.eqb_neq. lia. }
    by rewrite !Hflip in Hst.
Qed.

Lemma history_newest_first_witness :
  let st := snd (createTransfer Scenario.later Scenario.after_transfer Sample.body_form) in
  (forall t, t ∈ transfers st -> exists z, Scenario.timeValue (Transfer.date t) = Int z) /\
  Transfer.date <$> (Transfer.transfer <$> listTransfers Scenario.timeValue st)
  = [Scenario.later; Sample.now] /\
  StronglySorted (fun a b => time_of Scenario.timeValue b <= time_of Scenario.timeValue a)
                 (listTransfers Scenario.timeValue st).
Proof.
  cbv zeta.
  assert (forall t, t ∈ transfers (snd (createTransfer Scenario.later Scenario.after_transfer
                                                       Sample.body_form)) ->
                    exists z, Scenario.timeValue (Transfer.date t) = Int z) as H.
  { intros t Ht. apply list_elem_of_In in Ht. simpl in Ht.
    destruct Ht as [<-|[<-|[]]]; eexists; reflexivity. }
  split; [exact H|]. split; [reflexivity|].
  exact (proj1 (history_newest_first Scenario.timeValue _ H)).
Defined.

(** The response of an accepted request, with its names. *)
Lemma created_response now st body t :
  fst (createTransfer now st body) = Created t ->
  exists product fromWarehouse toWarehouse,
    find (fun p => strict_eq (Product.id p) (parseInt (productId body))) (products st)
      = Some product /\
    find (fun w => strict_eq (Warehouse.id w) (parseInt (fromWarehouseId body))) (warehouses st)
      = Some fromWarehouse /\
    find (fun w => strict_eq (Warehouse.id w) (parseInt (toWarehouseId body))) (warehouses st)
      = Some toWarehouse /\
    Transfer.productId (Transfer.transfer t) = parseInt (productId body) /\
    Transfer.fromWarehouseId (Transfer.transfer t) = parseInt (fromWarehouseId body) /\
    Transfer.toWarehouseId (Transfer.transfer t) = parseInt (toWarehouseId body) /\
    t = Transfer.mkEnriched (Transfer.transfer t) (Product.name product) (Product.sku product)
                            (Warehouse.name fromWarehouse) (Warehouse.name toWarehouse).
Proof.
  unfold createTransfer.
  destruct (negb (truthy (productId body)) || _ || _ || _); [discriminate|].
  destruct (strict_equals _ _); [discriminate|].
  destruct (le_zero _); [discriminate|].
  destruct (find _ (products st)) as [product|]; [|discriminate].
  destruct (find _ (warehouses st)) as [fromWarehouse|]; [|discriminate].
  destruct (find (fun w => strict_eq (Warehouse.id w) (parseInt (toWarehouseId body))) _)
    as [toWarehouse|]; [|discriminate].
  destruct (find_ref _ (stock st)) as [[i sourceStock]|]; [|discriminate].
  destruct (num_lt _ _); [discriminate|].
  simpl. intros [= <-]. exists product, fromWarehouse, toWarehouse. by repeat split.
Qed.

Lemma string_or_nonempty s fallback :
  s <> ""%string -> string_or (Some s) fallback = s.
Proof. intros Hs. simpl. by apply String.eqb_neq in Hs as ->. Qed.

(** X25. What an accepted POST answers is what the history then shows:
    when the names it carries are not empty, the enriched transfer of the
    201 response is the entry the next GET lists for that transfer. *)
Theorem created_transfer_is_listed timeValue now st body t :
  fst (createTransfer now st body) = Created t ->
  Transfer.productName t <> ""%string ->
  Transfer.productSku t <> ""%string ->
  Transfer.fromWarehouseName t <> ""%string ->
  Transfer.toWarehouseName t <> ""%string ->
  let st' := snd (createTransfer now st body) in
  enrich st' (Transfer.transfer t) = t /\
  t ∈ listTransfers timeValue st' /\
  length (listTransfers timeValue st') = S (length (transfers st)).
Proof.
  intros Hres Hn1 Hn2 Hn3 Hn4. cbv zeta.
  destruct (created_response _ _ _ _ Hres)
    as (product & fromW & toW & Hp & Hf & Ht & Hpid & Hfid & Htid & Heq).
  destruct (TransferMore.untouched_files now st body) as (Hprod & Hware & _).
  destruct (TransferFacts.created_inv _ _ _ _ Hres)
    as (_ & _ & product' & fromW' & toW' & i & src & _ & _ & _ & _ & _ & _ & Hst).
  assert (enrich (snd (createTransfer now st body)) (Transfer.transfer t) = t) as Henrich.
  { unfold enrich. rewrite Hprod, Hware, Hpid, Hfid, Htid, Hp, Hf, Ht. simpl fmap.
    rewrite Heq in Hn1, Hn2, Hn3, Hn4. simpl in Hn1, Hn2, Hn3, Hn4.
    rewrite !string_or_nonempty by assumption. symmetry. exact Heq. }
  split; [exact Henrich|].
  assert (Permutation (listTransfers timeValue (snd (createTransfer now st body)))
                      (enrich (snd (createTransfer now st body))
                         <$> transfers (snd (createTransfer now st body)))) as Hperm
    by apply array_sort_perm_any.
  split.
  - rewrite Hperm. apply list_elem_of_fmap. exists (Transfer.transfer t).
    split; [by rewrite Henrich|]. rewrite Hst. simpl.
    apply elem_of_app. right. apply list_elem_of_here.
  - rewrite Hperm, length_fmap, Hst. simpl. rewrite length_app. simpl. lia.
Qed.

Lemma created_transfer_is_listed_witness :
  exists t,
    fst (createTransfer Sample.now Sample.store Sample.body_form) = Created t /\
    Transfer.productName t = "Bamboo Spork"%string /\
    enrich Scenario.after_transfer (Transfer.transfer t) = t /\
    t ∈ listTransfers Scenario.timeValue Scenario.after_transfer.
Proof.
  eexists. split; [reflexivity|]. split; [reflexivity|].
  destruct (created_transfer_is_listed Scenario.timeValue Sample.now Sample.store
              Sample.body_form _ eq_refl
              ltac:(discriminate) ltac:(discriminate)
              ltac:(discriminate) ltac:(discriminate)) as (H1 & H2 & _).
  split; [exact H1|exact H2].
Defined.

End TransferListFacts.
